(** * remoteExplorer.ts: forwarded-ports view and automatic port forwarding

    A shallow embedding of the two workbench contributions of
    [vs/workbench/contrib/remote/browser/remoteExplorer.ts]:

    - [ForwardedPortsView] registers the forwarded-ports panel and keeps the
      activity badge and the status-bar entry in step with the tunnel model;
    - [AutomaticPortForwarding] starts and stops the terminal URL scanner
      and forwards the local URLs it reports.

    Both classes are event handlers over injected services.  Each module
    keeps the private fields of the class together with the part of the
    services the class reads or writes in one record, and every method is a
    function from that record to itself.  Subscriptions, badges, status-bar
    entries and scanners are identified by numbers drawn from a counter, so
    that disposing one of them is an observable change.  What the services do
    on their own (a context key changes, a port is forwarded, the scanner
    finds a URL, a promise resolves) is an [Event]; [step] delivers it to the
    listeners that are subscribed at that moment.

    The first part of the file is the program, the second its properties. *)

From stdpp Require Import gmap strings list pretty.
From Stdlib Require Import ZArith Ascii.

Local Open Scope string_scope.

(* ===================================================================== *)
(** * Part I: the program *)


(** ** Data shared by the two contributions *)

(** [RemoteTunnel]: what [remoteExplorerService.forward] resolves to. *)
Record Tunnel := mkTunnel {
  tunnelRemoteHost : string;
  tunnelRemotePort : Z;
  localAddress : string
}.

(** The argument of [onDidMatchLocalUrl]: [{ host: string, port: number }]. *)
Record LocalUrl := mkLocalUrl {
  host : string;
  port : Z
}.

Record ViewContainer := mkViewContainer {
  container_id : string
}.

(** Views are told apart only by whether their id is [TUNNEL_VIEW_ID]. *)
Inductive ViewId :=
| TunnelView
| OtherView (name : string).

Definition VIEWLET_ID : string := "workbench.view.remote".

(** JavaScript truthiness of a [string | undefined]. *)
Definition truthy (o : option string) : bool :=
  match o with
  | Some s => negb (String.eqb s "")
  | None => false
  end.

(** [!o] for an optional object reference. *)
Definition undefined {A} (o : option A) : bool :=
  match o with
  | Some _ => false
  | None => true
  end.

Definition is_tunnel_view (v : ViewId) : bool :=
  match v with
  | TunnelView => true
  | OtherView _ => false
  end.

(** Removing a handle from a service's list of live handles. *)
Definition drop (h : nat) (l : list nat) : list nat :=
  List.filter (fun x => negb (Nat.eqb x h)) l.

(* ===================================================================== *)
Module ForwardedPortsView.

(** What the class hands to [Disposable._register]. *)
Inductive Disposable :=
| WelcomeContent
| ForwardPortListener
| ClosePortListener
| StatusbarEntry (h : nat).

(** A badge shown by [activityService.showViewContainerActivity]. *)
Record Activity := mkActivity {
  handle : nat;
  container : string;
  number : nat;
  label : string
}.

Record State := mkState {
  (* IWorkbenchEnvironmentService *)
  remoteAuthority : option string;
  (* IContextKeyService: !!forwardedPortsViewEnabled.getValue(..) and the
     live onDidChangeContext subscriptions of this object *)
  viewEnabled : bool;
  contextListeners : list nat;
  (* IRemoteExplorerService.tunnelModel *)
  forwarded : gmap string Tunnel;
  onForwardPort : bool;
  onClosePort : bool;
  (* IViewDescriptorService: getViewContainerById(VIEWLET_ID) and
     getViewContainerByViewId(TUNNEL_VIEW_ID) *)
  viewContainerById : option ViewContainer;
  viewContainerByViewId : option ViewContainer;
  (* IViewsRegistry *)
  registeredViews : list (ViewId * string);
  onViewsRegistered : bool;
  (* IActivityService, IStatusbarService *)
  activities : list Activity;
  statusbarEntries : list nat;
  nextHandle : nat;
  (* private fields *)
  contextKeyListener : option nat;
  _activityBadge : option nat;
  entryAccessor : option nat;
  _store : list Disposable
}.

Definition set_viewEnabled v s :=
  mkState (remoteAuthority s) v (contextListeners s) (forwarded s)
    (onForwardPort s) (onClosePort s) (viewContainerById s)
    (viewContainerByViewId s) (registeredViews s) (onViewsRegistered s)
    (activities s) (statusbarEntries s) (nextHandle s) (contextKeyListener s)
    (_activityBadge s) (entryAccessor s) (_store s).

Definition set_contextListeners v s :=
  mkState (remoteAuthority s) (viewEnabled s) v (forwarded s)
    (onForwardPort s) (onClosePort s) (viewContainerById s)
    (viewContainerByViewId s) (registeredViews s) (onViewsRegistered s)
    (activities s) (statusbarEntries s) (nextHandle s) (contextKeyListener s)
    (_activityBadge s) (entryAccessor s) (_store s).

Definition set_forwarded v s :=
  mkState (remoteAuthority s) (viewEnabled s) (contextListeners s) v
    (onForwardPort s) (onClosePort s) (viewContainerById s)
    (viewContainerByViewId s) (registeredViews s) (onViewsRegistered s)
    (activities s) (statusbarEntries s) (nextHandle s) (contextKeyListener s)
    (_activityBadge s) (entryAccessor s) (_store s).

Definition set_tunnelListeners f c s :=
  mkState (remoteAuthority s) (viewEnabled s) (contextListeners s)
    (forwarded s) f c (viewContainerById s)
    (viewContainerByViewId s) (registeredViews s) (onViewsRegistered s)
    (activities s) (statusbarEntries s) (nextHandle s) (contextKeyListener s)
    (_activityBadge s) (entryAccessor s) (_store s).

Definition set_viewContainers byId byViewId s :=
  mkState (remoteAuthority s) (viewEnabled s) (contextListeners s)
    (forwarded s) (onForwardPort s) (onClosePort s) byId byViewId
    (registeredViews s) (onViewsRegistered s)
    (activities s) (statusbarEntries s) (nextHandle s) (contextKeyListener s)
    (_activityBadge s) (entryAccessor s) (_store s).

Definition set_registeredViews v s :=
  mkState (remoteAuthority s) (viewEnabled s) (contextListeners s)
    (forwarded s) (onForwardPort s) (onClosePort s) (viewContainerById s)
    (viewContainerByViewId s) v (onViewsRegistered s)
    (activities s) (statusbarEntries s) (nextHandle s) (contextKeyListener s)
    (_activityBadge s) (entryAccessor s) (_store s).

Definition set_onViewsRegistered v s :=
  mkState (remoteAuthority s) (viewEnabled s) (contextListeners s)
    (forwarded s) (onForwardPort s) (onClosePort s) (viewContainerById s)
    (viewContainerByViewId s) (registeredViews s) v
    (activities s) (statusbarEntries s) (nextHandle s) (contextKeyListener s)
    (_activityBadge s) (entryAccessor s) (_store s).

Definition set_activities v s :=
  mkState (remoteAuthority s) (viewEnabled s) (contextListeners s)
    (forwarded s) (onForwardPort s) (onClosePort s) (viewContainerById s)
    (viewContainerByViewId s) (registeredViews s) (onViewsRegistered s)
    v (statusbarEntries s) (nextHandle s) (contextKeyListener s)
    (_activityBadge s) (entryAccessor s) (_store s).

Definition set_statusbarEntries v s :=
  mkState (remoteAuthority s) (viewEnabled s) (contextListeners s)
    (forwarded s) (onForwardPort s) (onClosePort s) (viewContainerById s)
    (viewContainerByViewId s) (registeredViews s) (onViewsRegistered s)
    (activities s) v (nextHandle s) (contextKeyListener s)
    (_activityBadge s) (entryAccessor s) (_store s).

Definition set_nextHandle v s :=
  mkState (remoteAuthority s) (viewEnabled s) (contextListeners s)
    (forwarded s) (onForwardPort s) (onClosePort s) (viewContainerById s)
    (viewContainerByViewId s) (registeredViews s) (onViewsRegistered s)
    (activities s) (statusbarEntries s) v (contextKeyListener s)
    (_activityBadge s) (entryAccessor s) (_store s).

Definition set_contextKeyListener v s :=
  mkState (remoteAuthority s) (viewEnabled s) (contextListeners s)
    (forwarded s) (onForwardPort s) (onClosePort s) (viewContainerById s)
    (viewContainerByViewId s) (registeredViews s) (onViewsRegistered s)
    (activities s) (statusbarEntries s) (nextHandle s) v
    (_activityBadge s) (entryAccessor s) (_store s).

Definition set__activityBadge v s :=
  mkState (remoteAuthority s) (viewEnabled s) (contextListeners s)
    (forwarded s) (onForwardPort s) (onClosePort s) (viewContainerById s)
    (viewContainerByViewId s) (registeredViews s) (onViewsRegistered s)
    (activities s) (statusbarEntries s) (nextHandle s) (contextKeyListener s)
    v (entryAccessor s) (_store s).

Definition set_entryAccessor v s :=
  mkState (remoteAuthority s) (viewEnabled s) (contextListeners s)
    (forwarded s) (onForwardPort s) (onClosePort s) (viewContainerById s)
    (viewContainerByViewId s) (registeredViews s) (onViewsRegistered s)
    (activities s) (statusbarEntries s) (nextHandle s) (contextKeyListener s)
    (_activityBadge s) v (_store s).

(** [Disposable._register]: the object keeps what it must dispose with
    itself. *)
Definition _register (d : Disposable) s :=
  mkState (remoteAuthority s) (viewEnabled s) (contextListeners s)
    (forwarded s) (onForwardPort s) (onClosePort s) (viewContainerById s)
    (viewContainerByViewId s) (registeredViews s) (onViewsRegistered s)
    (activities s) (statusbarEntries s) (nextHandle s) (contextKeyListener s)
    (_activityBadge s) (entryAccessor s) (d :: _store s).

(** The label function passed to [NumberBadge]. *)
Definition badgeLabel (n : nat) : string :=
  if Nat.eqb n 1 then "1 forwarded port"
  else pretty n ++ " forwarded ports".

(** The activity service, the status bar and the context-key service are
    injected; their code is outside this file.  In the six definitions that
    follow, an operation that returns a disposable gives it the number
    [nextHandle] had before the call; disposing it takes the badge, entry or
    subscription away, and disposing it again does nothing. *)

(** Modelled from the spec: [activityService.showViewContainerActivity].
    "ActivityIndicator and StatusLine: add/update/remove a badge or line item
    by identifier." *)
Definition showViewContainerActivity (containerId : string) (n : nat) s :=
  set_nextHandle (S (nextHandle s))
    (set_activities
       (mkActivity (nextHandle s) containerId n (badgeLabel n) :: activities s) s).

(** Modelled from the spec: [dispose] of the badge's disposable; "remove a
    badge by identifier". *)
Definition disposeActivity (h : nat) s :=
  set_activities
    (List.filter (fun a => negb (Nat.eqb (handle a) h)) (activities s)) s.

(** Modelled from the spec: [statusbarService.addEntry]; "add a line item by
    identifier". *)
Definition addEntry s :=
  set_nextHandle (S (nextHandle s))
    (set_statusbarEntries (nextHandle s :: statusbarEntries s) s).

(** Modelled from the spec: [dispose] of the entry accessor; "remove a line
    item by identifier". *)
Definition disposeEntry (h : nat) s :=
  set_statusbarEntries (drop h (statusbarEntries s)) s.

(** Modelled from the spec: [contextKeyService.onDidChangeContext].
    "CapabilityContext: exposes a boolean-valued query and a
    subscribe-to-change operation keyed by a set of watched keys." *)
Definition onDidChangeContext s :=
  set_nextHandle (S (nextHandle s))
    (set_contextListeners (nextHandle s :: contextListeners s) s).

(** Modelled from the spec: [dispose] of a context-key subscription; "each
    subscriber owning a disposable handle it must release". *)
Definition disposeContextListener (l : nat) s :=
  set_contextListeners (drop l (contextListeners s)) s.

(** Lines 88-90: the badge of an earlier call is disposed; the field keeps
    the stale handle. *)
Definition disposeActivityBadge s :=
  match _activityBadge s with
  | Some h => disposeActivity h s
  | None => s
  end.

(** Lines 87-99. *)
Definition updateActivityBadge s :=
  let s1 := disposeActivityBadge s in
  if Nat.ltb 0 (size (forwarded s1)) then
    match viewContainerByViewId s1 with
    | Some viewContainer =>
        set__activityBadge (Some (nextHandle s1))
          (showViewContainerActivity (container_id viewContainer)
             (size (forwarded s1)) s1)
    | None => s1
    end
  else s1.

(** Lines 101-108. *)
Definition updateStatusBar s :=
  if undefined (entryAccessor s) && Nat.ltb 0 (size (forwarded s)) then
    _register (StatusbarEntry (nextHandle s))
      (set_entryAccessor (Some (nextHandle s)) (addEntry s))
  else
    match entryAccessor s with
    | Some h =>
        if Nat.eqb (size (forwarded s)) 0 then
          set_entryAccessor None (disposeEntry h s)
        else s
    | None => s
    end.

(** The listener of lines 78-84, called with the ids of the views that
    were registered. *)
Definition viewsRegisteredCallback (e : list ViewId) s :=
  if existsb is_tunnel_view e then
    set_onViewsRegistered false (updateStatusBar (updateActivityBadge s))
  else s.

(** Modelled from the spec: the views registry is outside this file.
    "PanelRegistry: register/reveal a UI panel by identifier."  The registry
    records the views and fires [onViewsRegistered]. *)
Definition registerViews (views : list ViewId) (c : ViewContainer) s :=
  let s1 := set_registeredViews
              (registeredViews s ++ map (fun v => (v, container_id c)) views)
              s in
  if onViewsRegistered s1 then viewsRegisteredCallback views s1 else s1.

(** Lines 47-50: the listener of an earlier call is disposed. *)
Definition disposeContextKeyListener s :=
  match contextKeyListener s with
  | Some l => set_contextKeyListener None (disposeContextListener l s)
  | None => s
  end.

(** Lines 46-67. *)
Definition enableForwardedPortsView s :=
  let s1 := disposeContextKeyListener s in
  if truthy (remoteAuthority s1) && viewEnabled s1 then
    match viewContainerById s1 with
    | Some viewContainer => registerViews [TunnelView] viewContainer s1
    | None => s1
    end
  else if truthy (remoteAuthority s1) then
    set_contextKeyListener (Some (nextHandle s1)) (onDidChangeContext s1)
  else s1.

(** Lines 69-85. *)
Definition enableBadgeAndStatusBar s :=
  set_onViewsRegistered true
    (_register ClosePortListener
       (_register ForwardPortListener (set_tunnelListeners true true s))).

(** The services as the constructor finds them: nothing of this object is
    subscribed or shown yet. *)
Definition initial (ra : option string) (enabled : bool)
    (fwd : gmap string Tunnel) (byId byViewId : option ViewContainer) : State :=
  mkState ra enabled [] fwd false false byId byViewId [] false [] [] 0
    None None None [].

(** Lines 30-44. *)
Definition constructor (s : State) : State :=
  enableForwardedPortsView (enableBadgeAndStatusBar (_register WelcomeContent s)).

(** The handler of [tunnelModel.onForwardPort] and [onClosePort]. *)
Definition tunnelModelChanged s := updateStatusBar (updateActivityBadge s).

(** What the services can do to the object: the context key
    [forwardedPortsViewEnabled] is set, another key changes, the tunnel model
    forwards or closes a port, the view descriptor service answers
    differently from now on, another contribution registers its views. *)
Inductive Event :=
| SetViewEnabled (b : bool)
| OtherContextChange
| PortForwarded (address : string) (t : Tunnel)
| PortClosed (address : string)
| ViewContainersChanged (byId byViewId : option ViewContainer)
| OtherViewsRegistered (names : list string) (into : string).

(** The listener of lines 61-65; [affects] is
    [e.affectsSome(forwardedPortsViewEnabled.keys())]. *)
Definition contextKeyListenerCallback (affects : bool) s :=
  if affects then enableForwardedPortsView s else s.

(** The context-key service calls every listener that was subscribed when
    the event was raised. *)
Definition fireContextChange (affects : bool) s :=
  fold_left (fun s' _ => contextKeyListenerCallback affects s')
    (contextListeners s) s.

Definition step (e : Event) s :=
  match e with
  | SetViewEnabled b => fireContextChange true (set_viewEnabled b s)
  | OtherContextChange => fireContextChange false s
  | PortForwarded a t =>
      let s1 := set_forwarded (<[a := t]> (forwarded s)) s in
      if onForwardPort s1 then tunnelModelChanged s1 else s1
  | PortClosed a =>
      let s1 := set_forwarded (delete a (forwarded s)) s in
      if onClosePort s1 then tunnelModelChanged s1 else s1
  | ViewContainersChanged byId byViewId => set_viewContainers byId byViewId s
  | OtherViewsRegistered names into =>
      let views := map OtherView names in
      let s1 := set_registeredViews
                  (registeredViews s ++ map (fun v => (v, into)) views) s in
      if onViewsRegistered s1 then viewsRegisteredCallback views s1 else s1
  end.

Definition run (es : list Event) s := fold_left (fun s' e => step e s') es s.

(** How many times the forwarded-ports panel has been registered. *)
Definition panelRegistrations s :=
  length (List.filter (fun p => is_tunnel_view (fst p)) (registeredViews s)).

(** The part of the state that decides the registration of the panel. *)
Definition panelPart s :=
  (remoteAuthority s, viewEnabled s, contextListeners s, contextKeyListener s,
   registeredViews s, viewContainerById s).

Definition badgePart s := (activities s, _activityBadge s).
Definition statusPart s := (statusbarEntries s, entryAccessor s).
Definition wiring s := (onForwardPort s, onClosePort s).
Definition tunnelPart s := (forwarded s, viewContainerByViewId s).

(** Whatever the activity service shows for this object is the badge the
    object holds in [_activityBadge]. *)
Definition badge_ok s :=
  activities s = [] \/
  exists a, activities s = [a] /\ _activityBadge s = Some (handle a).

(** The status bar has the entry of [entryAccessor] and no other. *)
Definition status_ok s :=
  statusbarEntries s =
    match entryAccessor s with Some h => [h] | None => [] end.

Definition Inv s := badge_ok s /\ status_ok s /\ wiring s = (true, true).

(** The badge [updateActivityBadge] is about to show. *)
Definition badgeFor s (c : ViewContainer) : Activity :=
  mkActivity (nextHandle s) (container_id c) (size (forwarded s))
    (badgeLabel (size (forwarded s))).

(** The object waits for the capability flag: it holds the one live
    context-key listener and has registered nothing. *)
Definition watching s :=
  truthy (remoteAuthority s) = true /\ viewEnabled s = false /\
  (exists l, contextKeyListener s = Some l /\ contextListeners s = [l]) /\
  panelRegistrations s = 0.

(** No listener is left, and the panel has been registered [n] times. *)
Definition settled (n : nat) s :=
  contextListeners s = [] /\ panelRegistrations s = n.

(** Values used in the examples. *)
Definition remoteContainer : ViewContainer := mkViewContainer VIEWLET_ID.
Definition devServer : Tunnel := mkTunnel "localhost" 3000 "localhost:3000".

(** After [onForwardPort] or [onClosePort] has been handled: the badge, when
    there is one, carries the size of the forwarded set; there is one exactly
    when the set is not empty and the view container of the tunnel view was
    found; the status bar has one entry exactly when the set is not empty. *)
Definition synced s :=
  let n := size (forwarded s) in
  ((exists a, activities s = [a] /\ number a = n /\ label a = badgeLabel n) <->
   (0 < n /\ is_Some (viewContainerByViewId s))) /\
  (activities s = [] <-> ~ (0 < n /\ is_Some (viewContainerByViewId s))) /\
  (length (statusbarEntries s) = 1 <-> 0 < n) /\
  (statusbarEntries s = [] <-> n = 0) /\
  length (activities s) <= 1 /\ length (statusbarEntries s) <= 1.

(** The context-key subscriptions of the object are the one held in
    [contextKeyListener], if any. *)
Definition listener_ok s :=
  contextListeners s =
    match contextKeyListener s with Some l => [l] | None => [] end.

(** Either the panel is not registered and the listener of lines 78-84 is
    still subscribed, or the panel is registered once and neither that
    listener nor a context-key listener is left. *)
Definition registration_ok s :=
  (panelRegistrations s = 0 /\ onViewsRegistered s = true) \/
  (panelRegistrations s = 1 /\ onViewsRegistered s = false /\
   contextListeners s = []).

Definition Shape s := listener_ok s /\ registration_ok s.

(** The status bar has one entry when ports are forwarded and none
    otherwise. *)
Definition statusSynced s :=
  length (statusbarEntries s) =
    if Nat.ltb 0 (size (forwarded s)) then 1 else 0.

(** What the object has handed to [_register] by the end of the
    constructor, and the accessor of every status-bar entry shown. *)
Definition store_ok s :=
  In WelcomeContent (_store s) /\ In ForwardPortListener (_store s) /\
  In ClosePortListener (_store s) /\
  (forall h, In h (statusbarEntries s) -> In (StatusbarEntry h) (_store s)).

(** Every badge shown counts at least one port and carries the label of
    its count. *)
Definition badges_labelled s :=
  forall a, In a (activities s) ->
    0 < number a /\ label a = badgeLabel (number a).

(** What is displayed and what the object keeps for disposal. *)
Definition displayPart s :=
  (activities s, statusbarEntries s, forwarded s, _store s).

(** The ways through [enableForwardedPortsView], by the branch taken after
    the listener of an earlier call was disposed. *)
Inductive Outcome (s : State) : State -> Prop :=
| Registered c s1 :
    s1 = disposeContextKeyListener s ->
    truthy (remoteAuthority s) = true -> viewEnabled s = true ->
    viewContainerById s = Some c ->
    Outcome s (registerViews [TunnelView] c s1)
| NoContainer s1 :
    s1 = disposeContextKeyListener s ->
    truthy (remoteAuthority s) = true -> viewEnabled s = true ->
    viewContainerById s = None ->
    Outcome s s1
| Listening s1 :
    s1 = disposeContextKeyListener s ->
    truthy (remoteAuthority s) = true -> viewEnabled s = false ->
    Outcome s
      (set_contextKeyListener (Some (nextHandle s1)) (onDidChangeContext s1))
| NotRemote s1 :
    s1 = disposeContextKeyListener s ->
    truthy (remoteAuthority s) = false ->
    Outcome s s1.

End ForwardedPortsView.

(* ===================================================================== *)
Module AutomaticPortForwarding.

(** What the class hands to [Disposable._register] or disposes itself. *)
Inductive Disposable :=
| ConfigurationListener (l : nat)
| ContextListener (l : nat)
| Finder (f : nat)
| MatchListener (f l : nat).

Inductive Severity := Info | Warning | Error.

(** The two choices offered by the notification of lines 178-192. *)
Inductive Choice :=
| OpenPortInBrowser (address : string)
| ShowForwardedPorts.

(** A call of [notificationService.prompt]. *)
Record Prompt := mkPrompt {
  severity : Severity;
  message : string;
  choices : list Choice;
  neverShowAgain : string
}.

Record State := mkState {
  (* IWorkbenchEnvironmentService *)
  remoteAuthority : option string;
  (* IConfigurationService: getValue('remote.autoForwardPorts') as a
     condition, and the live onDidChangeConfiguration subscriptions *)
  autoForwardPorts : bool;
  configurationListeners : list nat;
  (* IContextKeyService: forwardedPortsViewEnabled.getValue(..) as a
     condition, and the live onDidChangeContext subscriptions *)
  viewEnabled : bool;
  contextListeners : list nat;
  (* IRemoteExplorerService: tunnelModel.forwarded, the calls of forward()
     (newest first) and the handler activations waiting for their result *)
  forwarded : gmap string Tunnel;
  forwardRequests : list LocalUrl;
  awaiting : list LocalUrl;
  (* INotificationService: the prompts shown, newest first *)
  prompts : list Prompt;
  (* the UrlFinder objects that were constructed and not disposed, and the
     live onDidMatchLocalUrl subscriptions (finder, listener) *)
  urlFinders : list nat;
  matchListeners : list (nat * nat);
  (* every dispose() call the object made, newest first *)
  disposed : list Disposable;
  nextHandle : nat;
  (* private fields *)
  contextServiceListener : option nat;
  urlFinder : option nat;
  _store : list Disposable
}.

Definition set_autoForwardPorts v s :=
  mkState (remoteAuthority s) v (configurationListeners s) (viewEnabled s)
    (contextListeners s) (forwarded s) (forwardRequests s) (awaiting s)
    (prompts s) (urlFinders s) (matchListeners s) (disposed s) (nextHandle s)
    (contextServiceListener s) (urlFinder s) (_store s).

Definition set_configurationListeners v s :=
  mkState (remoteAuthority s) (autoForwardPorts s) v (viewEnabled s)
    (contextListeners s) (forwarded s) (forwardRequests s) (awaiting s)
    (prompts s) (urlFinders s) (matchListeners s) (disposed s) (nextHandle s)
    (contextServiceListener s) (urlFinder s) (_store s).

Definition set_viewEnabled v s :=
  mkState (remoteAuthority s) (autoForwardPorts s) (configurationListeners s) v
    (contextListeners s) (forwarded s) (forwardRequests s) (awaiting s)
    (prompts s) (urlFinders s) (matchListeners s) (disposed s) (nextHandle s)
    (contextServiceListener s) (urlFinder s) (_store s).

Definition set_contextListeners v s :=
  mkState (remoteAuthority s) (autoForwardPorts s) (configurationListeners s)
    (viewEnabled s) v (forwarded s) (forwardRequests s) (awaiting s)
    (prompts s) (urlFinders s) (matchListeners s) (disposed s) (nextHandle s)
    (contextServiceListener s) (urlFinder s) (_store s).

Definition set_forwarded v s :=
  mkState (remoteAuthority s) (autoForwardPorts s) (configurationListeners s)
    (viewEnabled s) (contextListeners s) v (forwardRequests s) (awaiting s)
    (prompts s) (urlFinders s) (matchListeners s) (disposed s) (nextHandle s)
    (contextServiceListener s) (urlFinder s) (_store s).

Definition set_forwardRequests v s :=
  mkState (remoteAuthority s) (autoForwardPorts s) (configurationListeners s)
    (viewEnabled s) (contextListeners s) (forwarded s) v (awaiting s)
    (prompts s) (urlFinders s) (matchListeners s) (disposed s) (nextHandle s)
    (contextServiceListener s) (urlFinder s) (_store s).

Definition set_awaiting v s :=
  mkState (remoteAuthority s) (autoForwardPorts s) (configurationListeners s)
    (viewEnabled s) (contextListeners s) (forwarded s) (forwardRequests s) v
    (prompts s) (urlFinders s) (matchListeners s) (disposed s) (nextHandle s)
    (contextServiceListener s) (urlFinder s) (_store s).

Definition set_prompts v s :=
  mkState (remoteAuthority s) (autoForwardPorts s) (configurationListeners s)
    (viewEnabled s) (contextListeners s) (forwarded s) (forwardRequests s)
    (awaiting s) v (urlFinders s) (matchListeners s) (disposed s)
    (nextHandle s) (contextServiceListener s) (urlFinder s) (_store s).

Definition set_urlFinders v s :=
  mkState (remoteAuthority s) (autoForwardPorts s) (configurationListeners s)
    (viewEnabled s) (contextListeners s) (forwarded s) (forwardRequests s)
    (awaiting s) (prompts s) v (matchListeners s) (disposed s)
    (nextHandle s) (contextServiceListener s) (urlFinder s) (_store s).

Definition set_matchListeners v s :=
  mkState (remoteAuthority s) (autoForwardPorts s) (configurationListeners s)
    (viewEnabled s) (contextListeners s) (forwarded s) (forwardRequests s)
    (awaiting s) (prompts s) (urlFinders s) v (disposed s)
    (nextHandle s) (contextServiceListener s) (urlFinder s) (_store s).

Definition set_disposed v s :=
  mkState (remoteAuthority s) (autoForwardPorts s) (configurationListeners s)
    (viewEnabled s) (contextListeners s) (forwarded s) (forwardRequests s)
    (awaiting s) (prompts s) (urlFinders s) (matchListeners s) v
    (nextHandle s) (contextServiceListener s) (urlFinder s) (_store s).

Definition set_nextHandle v s :=
  mkState (remoteAuthority s) (autoForwardPorts s) (configurationListeners s)
    (viewEnabled s) (contextListeners s) (forwarded s) (forwardRequests s)
    (awaiting s) (prompts s) (urlFinders s) (matchListeners s) (disposed s)
    v (contextServiceListener s) (urlFinder s) (_store s).

Definition set_contextServiceListener v s :=
  mkState (remoteAuthority s) (autoForwardPorts s) (configurationListeners s)
    (viewEnabled s) (contextListeners s) (forwarded s) (forwardRequests s)
    (awaiting s) (prompts s) (urlFinders s) (matchListeners s) (disposed s)
    (nextHandle s) v (urlFinder s) (_store s).

Definition set_urlFinder v s :=
  mkState (remoteAuthority s) (autoForwardPorts s) (configurationListeners s)
    (viewEnabled s) (contextListeners s) (forwarded s) (forwardRequests s)
    (awaiting s) (prompts s) (urlFinders s) (matchListeners s) (disposed s)
    (nextHandle s) (contextServiceListener s) v (_store s).

(** [Disposable._register]. *)
Definition _register (d : Disposable) s :=
  mkState (remoteAuthority s) (autoForwardPorts s) (configurationListeners s)
    (viewEnabled s) (contextListeners s) (forwarded s) (forwardRequests s)
    (awaiting s) (prompts s) (urlFinders s) (matchListeners s) (disposed s)
    (nextHandle s) (contextServiceListener s) (urlFinder s) (d :: _store s).

(** The configuration service, the context-key service and [UrlFinder] are
    outside this file.  In the five definitions that follow, an operation
    that returns a disposable gives it the number [nextHandle] had before the
    call. *)

(** Modelled from the spec: [configurationService.onDidChangeConfiguration].
    "ConfigurationStore: exposes a boolean setting lookup and a
    subscribe-to-change operation scoped to a setting name." *)
Definition onDidChangeConfiguration s :=
  set_nextHandle (S (nextHandle s))
    (set_configurationListeners (nextHandle s :: configurationListeners s) s).

(** Modelled from the spec: [contextKeyService.onDidChangeContext].
    "CapabilityContext: exposes a boolean-valued query and a
    subscribe-to-change operation keyed by a set of watched keys." *)
Definition onDidChangeContext s :=
  set_nextHandle (S (nextHandle s))
    (set_contextListeners (nextHandle s :: contextListeners s) s).

(** Modelled from the spec: [new UrlFinder(terminalService)].
    "OutputScanner: given a text-output source, produces a sequence of
    DetectedLocalUrl events until explicitly stopped." *)
Definition newUrlFinder s :=
  set_nextHandle (S (nextHandle s))
    (set_urlFinders (nextHandle s :: urlFinders s) s).

(** Modelled from the spec: [urlFinder.onDidMatchLocalUrl], the
    subscription to the events of the scanner [f]. *)
Definition onDidMatchLocalUrl (f : nat) s :=
  set_nextHandle (S (nextHandle s))
    (set_matchListeners ((f, nextHandle s) :: matchListeners s) s).

(** Modelled from the spec: [d.dispose()].  The call is recorded and the
    subscription or scanner is taken out of the live ones: "stopping the
    scanner must synchronously release its underlying resource so no further
    matches fire after stop". *)
Definition dispose (d : Disposable) s :=
  let s1 := set_disposed (d :: disposed s) s in
  match d with
  | ConfigurationListener l =>
      set_configurationListeners (drop l (configurationListeners s1)) s1
  | ContextListener l => set_contextListeners (drop l (contextListeners s1)) s1
  | Finder f => set_urlFinders (drop f (urlFinders s1)) s1
  | MatchListener f l =>
      set_matchListeners
        (List.filter (fun p => negb (Nat.eqb (fst p) f && Nat.eqb (snd p) l))
           (matchListeners s1)) s1
  end.

(** Lines 198-203. *)
Definition stopUrlFinder s :=
  match urlFinder s with
  | Some f => set_urlFinder None (dispose (Finder f) s)
  | None => s
  end.

(** Lines 165-167. *)
Definition disposeContextServiceListener s :=
  match contextServiceListener s with
  | Some l => dispose (ContextListener l) s
  | None => s
  end.

(** Lines 161-196; the listener subscribed in line 169 is
    [localUrlListener] below. *)
Definition startUrlFinder s :=
  if undefined (urlFinder s) && negb (viewEnabled s) then s
  else
    let s1 := disposeContextServiceListener s in
    let f := nextHandle s1 in
    let s2 := set_urlFinder (Some f) (_register (Finder f) (newUrlFinder s1)) in
    _register (MatchListener f (nextHandle s2)) (onDidMatchLocalUrl f s2).

(** Lines 153-159. *)
Definition tryStartStopUrlFinder s :=
  if autoForwardPorts s then startUrlFinder s else stopUrlFinder s.

(** The services as the constructor finds them. *)
Definition initial (ra : option string) (setting enabled : bool)
    (fwd : gmap string Tunnel) : State :=
  mkState ra setting [] enabled [] fwd [] [] [] [] [] [] 0 None None [].

(** Lines 126-151. *)
Definition constructor s :=
  let s1 := _register (ConfigurationListener (nextHandle s))
              (onDidChangeConfiguration s) in
  if truthy (remoteAuthority s1) then
    let s2 := set_contextServiceListener (Some (nextHandle s1))
                (_register (ContextListener (nextHandle s1))
                   (onDidChangeContext s1)) in
    tryStartStopUrlFinder s2
  else s1.

(** The listeners of lines 137-141 and 144-148; [affects] is
    [e.affectsConfiguration(..)], respectively [e.affectsSome(..)]. *)
Definition changeListener (affects : bool) s :=
  if affects then tryStartStopUrlFinder s else s.

(** Each service calls every listener that was subscribed when the event
    was raised. *)
Definition fireConfigurationChange (affects : bool) s :=
  fold_left (fun s' _ => changeListener affects s') (configurationListeners s) s.

Definition fireContextChange (affects : bool) s :=
  fold_left (fun s' _ => changeListener affects s') (contextListeners s) s.

(** What the services can do to the object: the setting
    [remote.autoForwardPorts] is written, another setting changes, the
    context key [forwardedPortsViewEnabled] is set, another key changes, the
    tunnel model changes, a scanner finds a local URL, a pending call of
    [forward] resolves. *)
Inductive Event :=
| SetAutoForwardPorts (b : bool)
| OtherConfigurationChange
| SetViewEnabled (b : bool)
| OtherContextChange
| TunnelsChanged (fwd : gmap string Tunnel)
| LocalUrlMatched (f : nat) (u : LocalUrl)
| ForwardSettled (i : nat) (result : option Tunnel).

(** [mapHasTunnelLocalhostOrAllInterfaces] and [MakeAddress] are imported
    from [remoteExplorerService]; the listener is written over any two
    functions of their types. *)
Class RemoteExplorerImports := {
  mapHasTunnelLocalhostOrAllInterfaces : gmap string Tunnel -> string -> Z -> bool;
  MakeAddress : string -> Z -> string
}.

Section Handler.

Context {imports : RemoteExplorerImports}.

(** Lines 169-173: the listener of [onDidMatchLocalUrl] up to its [await].
    When the URL is not forwarded yet, [forward(localUrl)] is called and the
    activation waits for the promise. *)
Definition localUrlListener (localUrl : LocalUrl) s :=
  if mapHasTunnelLocalhostOrAllInterfaces (forwarded s)
       (host localUrl) (port localUrl)
  then s
  else set_awaiting (awaiting s ++ [localUrl])
         (set_forwardRequests (localUrl :: forwardRequests s) s).

(** The prompt of lines 175-193. *)
Definition promptFor (t : Tunnel) : Prompt :=
  let address := MakeAddress (tunnelRemoteHost t) (tunnelRemotePort t) in
  mkPrompt Info
    (address ++ " from the remote has been forwarded to " ++
     localAddress t ++ " locally.")
    [OpenPortInBrowser address; ShowForwardedPorts]
    "remote.tunnelsView.autoForwardNeverShow".

(** Lines 174-194: the rest of the listener, run with what the promise
    resolved to. *)
Definition forwardSettled (result : option Tunnel) s :=
  match result with
  | Some t => set_prompts (promptFor t :: prompts s) s
  | None => s
  end.

(** Modelled from the spec: how [UrlFinder] fires [onDidMatchLocalUrl].  A
    live scanner calls the listeners subscribed to it; a disposed one
    reports nothing ("no further matches fire after stop"). *)
Definition fireMatchLocalUrl (f : nat) (u : LocalUrl) s :=
  if existsb (Nat.eqb f) (urlFinders s) then
    fold_left (fun s' _ => localUrlListener u s')
      (List.filter (fun p : nat * nat => Nat.eqb (fst p) f) (matchListeners s)) s
  else s.

Definition step (e : Event) s :=
  match e with
  | SetAutoForwardPorts b => fireConfigurationChange true (set_autoForwardPorts b s)
  | OtherConfigurationChange => fireConfigurationChange false s
  | SetViewEnabled b => fireContextChange true (set_viewEnabled b s)
  | OtherContextChange => fireContextChange false s
  | TunnelsChanged fwd => set_forwarded fwd s
  | LocalUrlMatched f u => fireMatchLocalUrl f u s
  | ForwardSettled i result =>
      match awaiting s !! i with
      | Some _ => forwardSettled result (set_awaiting (delete i (awaiting s)) s)
      | None => s
      end
  end.

Definition run (es : list Event) s := fold_left (fun s' e => step e s') es s.

End Handler.

(** The part of the state the start and stop paths work on. *)
Definition controlPart s :=
  (configurationListeners s, contextListeners s, contextServiceListener s,
   urlFinder s, urlFinders s).

(** One configuration listener is live.  The context listener is live only
    as long as no scanner has been started: it is the one the constructor
    stored in [contextServiceListener], and [urlFinder] is still undefined. *)
Definition Subscribed s :=
  length (configurationListeners s) = 1 /\
  (contextListeners s = [] \/
   exists l, contextListeners s = [l] /\ contextServiceListener s = Some l /\
             urlFinder s = None).

(** The scanners, their listeners and the counter. *)
Definition scanPart s := (urlFinders s, matchListeners s, nextHandle s).

(** The listeners subscribed to the scanner [f]. *)
Definition listenersOf (f : nat) s :=
  List.filter (fun p : nat * nat => Nat.eqb (fst p) f) (matchListeners s).

(** Every live scanner has exactly one match listener; the numbers in use
    are below the counter. *)
Definition Paired s :=
  (forall f, In f (urlFinders s) -> f < nextHandle s) /\
  (forall p, In p (matchListeners s) -> fst p < nextHandle s) /\
  (forall f, In f (urlFinders s) -> length (listenersOf f s) = 1).

(** Modelled from the spec: [mapHasTunnelLocalhostOrAllInterfaces] is
    defined in [remoteExplorerService], outside this file.  "Treat localhost
    and all interfaces (0.0.0.0-equivalent) bind addresses as equivalent for
    matching purposes; a match on port plus host-equivalence against any
    existing entry suppresses the request." *)
Definition mapHasTunnelLocalhostOrAllInterfaces_model
    (m : gmap string Tunnel) (h : string) (p : Z) : bool :=
  let localhostOrAll x := String.eqb x "localhost" || String.eqb x "0.0.0.0" in
  existsb
    (fun kv : string * Tunnel =>
       Z.eqb (tunnelRemotePort (snd kv)) p &&
       (String.eqb (tunnelRemoteHost (snd kv)) h ||
        (localhostOrAll (tunnelRemoteHost (snd kv)) && localhostOrAll h)))
    (map_to_list m).

(** Modelled from the spec: [MakeAddress] is defined in
    [remoteExplorerService], outside this file.  An address is "a host:port
    pair". *)
Definition MakeAddress_model (h : string) (p : Z) : string :=
  h ++ ":" ++ pretty p.

Definition specImports : RemoteExplorerImports := {|
  mapHasTunnelLocalhostOrAllInterfaces := mapHasTunnelLocalhostOrAllInterfaces_model;
  MakeAddress := MakeAddress_model
|}.

(** [remoteAuthority.split('+')[0]]: the characters before the first
    [+], all of them when there is none. *)
Fixpoint beforePlus (a : string) : string :=
  match a with
  | EmptyString => EmptyString
  | String c rest =>
      if Ascii.eqb c "+"%char then EmptyString
      else String c (beforePlus rest)
  end.

(** What [showChoice.run] writes: [remoteExplorerService.targetType] and the
    calls of [viewsService.openViewContainer], newest first. *)
Record Explorer := mkExplorer {
  targetType : list string;
  openedViewContainers : list string
}.

(** Lines 184-191: the [run] of the "Show Forwarded Ports" choice. *)
Definition showChoice_run (remoteAuthority : option string) (x : Explorer) :
    Explorer :=
  let explorerType : option (list string) :=
    match remoteAuthority with
    | Some a => if truthy remoteAuthority then Some [beforePlus a] else None
    | None => None
    end in
  let x1 := match explorerType with
            | Some t => mkExplorer t (openedViewContainers x)
            | None => x
            end in
  mkExplorer (targetType x1) (VIEWLET_ID :: openedViewContainers x1).

(** The scanner in [urlFinder] is live, and one is stored only while the
    setting is on. *)
Definition Stored s :=
  (forall f, urlFinder s = Some f -> In f (urlFinders s)) /\
  (is_Some (urlFinder s) -> autoForwardPorts s = true).

(** Every live subscription and scanner of the object is in its store. *)
Definition Owned s :=
  (forall l, In l (configurationListeners s) ->
             In (ConfigurationListener l) (_store s)) /\
  (forall l, In l (contextListeners s) -> In (ContextListener l) (_store s)) /\
  (forall f, In f (urlFinders s) -> In (Finder f) (_store s)) /\
  (forall p, In p (matchListeners s) ->
             In (MatchListener (fst p) (snd p)) (_store s)).

(** No more prompts and pending calls than calls of [forward]. *)
Definition Accounted s :=
  length (prompts s) + length (awaiting s) <= length (forwardRequests s).

(** Nothing has been started, requested or shown. *)
Definition Quiet s :=
  viewEnabled s = false /\ urlFinder s = None /\ urlFinders s = [] /\
  matchListeners s = [] /\ forwardRequests s = [] /\ awaiting s = [] /\
  prompts s = [].

(** The object does not listen to context-key changes. *)
Definition Deaf s := contextListeners s = [] /\ contextServiceListener s = None.

(** What the object disposes of, and what it keeps a reference to, is in
    its store. *)
Definition Kept s :=
  (forall l, contextServiceListener s = Some l ->
             In (ContextListener l) (_store s)) /\
  (forall f, urlFinder s = Some f -> In (Finder f) (_store s)) /\
  (forall d, In d (disposed s) -> In d (_store s)).

End AutomaticPortForwarding.

(* ===================================================================== *)
(** * Part II: properties *)

Lemma drop_single h : drop h [h] = [].
Proof. unfold drop. cbn. now rewrite Nat.eqb_refl. Qed.

Lemma drop_not_in h l : ~ In h (drop h l).
Proof.
  unfold drop. intros H. apply List.filter_In in H as (_ & H).
  now rewrite Nat.eqb_refl in H.
Qed.

Lemma cons_neq {A} (x : A) (l : list A) : x :: l <> l.
Proof.
  intros E. apply (f_equal (@length A)) in E. cbn in E. lia.
Qed.

Lemma filter_none {A} (f : A -> bool) (l : list A) :
  (forall x, In x l -> f x = false) -> List.filter f l = [].
Proof.
  induction l as [|a l IH]; cbn; intros H; [reflexivity|].
  rewrite (H a) by now left. apply IH. intros x Hx. apply H. now right.
Qed.

(** A property kept by a listener is kept by firing it for every
    subscription. *)
Lemma fold_listeners_preserves {S} (P : S -> Prop) (f : S -> S)
    (l : list nat) (s : S) :
  (forall x, P x -> P (f x)) -> P s -> P (fold_left (fun s' _ => f s') l s).
Proof.
  intros Hf. revert s. induction l as [|x l IH]; cbn; auto.
Qed.

(* ===================================================================== *)
Module ForwardedPortsViewFacts.
Import ForwardedPortsView.

(** *** What the update functions leave alone *)

Lemma updateActivityBadge_frame s :
  panelPart (updateActivityBadge s) = panelPart s /\
  statusPart (updateActivityBadge s) = statusPart s /\
  wiring (updateActivityBadge s) = wiring s /\
  tunnelPart (updateActivityBadge s) = tunnelPart s /\
  onViewsRegistered (updateActivityBadge s) = onViewsRegistered s.
Proof.
  unfold updateActivityBadge, disposeActivityBadge, disposeActivity.
  repeat case_match; repeat split.
Qed.

Lemma updateStatusBar_frame s :
  panelPart (updateStatusBar s) = panelPart s /\
  badgePart (updateStatusBar s) = badgePart s /\
  wiring (updateStatusBar s) = wiring s /\
  tunnelPart (updateStatusBar s) = tunnelPart s /\
  onViewsRegistered (updateStatusBar s) = onViewsRegistered s.
Proof.
  unfold updateStatusBar.
  repeat case_match; repeat split.
Qed.

Lemma tunnelModelChanged_frame s :
  panelPart (tunnelModelChanged s) = panelPart s /\
  wiring (tunnelModelChanged s) = wiring s /\
  tunnelPart (tunnelModelChanged s) = tunnelPart s /\
  onViewsRegistered (tunnelModelChanged s) = onViewsRegistered s.
Proof.
  unfold tunnelModelChanged.
  destruct (updateStatusBar_frame (updateActivityBadge s)) as (-> & _ & -> & -> & ->).
  destruct (updateActivityBadge_frame s) as (-> & _ & -> & -> & ->).
  repeat split.
Qed.

(** *** The badge and the status-bar entry belong to the object *)

Lemma disposeActivityBadge_clears s :
  badge_ok s -> activities (disposeActivityBadge s) = [].
Proof.
  unfold disposeActivityBadge. intros [E | (a & E & B)].
  - destruct (_activityBadge s); cbn; rewrite E; reflexivity.
  - rewrite B. cbn. rewrite E. cbn. now rewrite Nat.eqb_refl.
Qed.

Lemma disposeActivityBadge_frame s :
  forwarded (disposeActivityBadge s) = forwarded s /\
  viewContainerByViewId (disposeActivityBadge s) = viewContainerByViewId s /\
  nextHandle (disposeActivityBadge s) = nextHandle s.
Proof. unfold disposeActivityBadge. destruct (_activityBadge s); repeat split. Qed.

Lemma updateActivityBadge_shown s :
  badge_ok s ->
  activities (updateActivityBadge s) =
    (if (0 <? size (forwarded s))%nat then
       match viewContainerByViewId s with
       | Some c => [badgeFor s c]
       | None => []
       end
     else []) /\
  badge_ok (updateActivityBadge s).
Proof.
  intros Hb.
  pose proof (disposeActivityBadge_clears s Hb) as Hclear.
  unfold updateActivityBadge. cbv zeta.
  destruct (disposeActivityBadge_frame s) as (-> & -> & Hn).
  set (s1 := disposeActivityBadge s) in *.
  destruct (0 <? size (forwarded s))%nat.
  - destruct (viewContainerByViewId s) as [c|].
    + unfold badge_ok, showViewContainerActivity. cbn.
      rewrite Hclear, Hn. split; [reflexivity|].
      right. eexists. split; reflexivity.
    + split; [assumption|]. left. assumption.
  - split; [assumption|]. left. assumption.
Qed.

Lemma updateStatusBar_shown s :
  status_ok s ->
  length (statusbarEntries (updateStatusBar s)) =
    (if (0 <? size (forwarded s))%nat then 1 else 0) /\
  status_ok (updateStatusBar s).
Proof.
  unfold status_ok, updateStatusBar. intros Hs.
  destruct (entryAccessor s) as [h|] eqn:Ea.
  - destruct (size (forwarded s)) as [|n]; cbn.
    + rewrite Hs, drop_single. split; reflexivity.
    + rewrite Ea, Hs. split; reflexivity.
  - destruct (size (forwarded s)) as [|n]; cbn.
    + rewrite Ea, Hs. split; reflexivity.
    + rewrite Hs. split; reflexivity.
Qed.

Lemma badge_ok_ext s s' : badgePart s' = badgePart s -> badge_ok s -> badge_ok s'.
Proof.
  unfold badgePart, badge_ok. intros E. injection E as -> ->. tauto.
Qed.

Lemma status_ok_ext s s' :
  statusPart s' = statusPart s -> status_ok s -> status_ok s'.
Proof.
  unfold statusPart, status_ok. intros E. injection E as -> ->. tauto.
Qed.

Lemma Inv_ext s s' :
  badgePart s' = badgePart s -> statusPart s' = statusPart s ->
  wiring s' = wiring s -> Inv s -> Inv s'.
Proof.
  intros Eb Es Ew (Hb & Hs & Hw). split; [|split].
  - eapply badge_ok_ext; eassumption.
  - eapply status_ok_ext; eassumption.
  - congruence.
Qed.

Lemma tunnelModelChanged_Inv s : Inv s -> Inv (tunnelModelChanged s).
Proof.
  intros (Hb & Hs & Hw). unfold tunnelModelChanged.
  destruct (updateActivityBadge_shown s Hb) as (_ & Hb').
  destruct (updateActivityBadge_frame s) as (_ & Es & Ew & _).
  destruct (updateStatusBar_frame (updateActivityBadge s)) as (_ & Eb & Ew' & _).
  split; [|split].
  - eapply badge_ok_ext; eassumption.
  - apply updateStatusBar_shown. eapply status_ok_ext; eassumption.
  - congruence.
Qed.

Lemma viewsRegisteredCallback_Inv e s : Inv s -> Inv (viewsRegisteredCallback e s).
Proof.
  intros H. unfold viewsRegisteredCallback.
  destruct (existsb is_tunnel_view e); [|assumption].
  apply tunnelModelChanged_Inv in H. revert H. apply Inv_ext; reflexivity.
Qed.

Lemma registerViews_Inv views c s : Inv s -> Inv (registerViews views c s).
Proof.
  intros H. unfold registerViews. cbv zeta.
  match goal with |- context [set_registeredViews ?v s] =>
    assert (H1 : Inv (set_registeredViews v s))
      by (revert H; apply Inv_ext; reflexivity);
    generalize dependent (set_registeredViews v s) end.
  intros s1 H1. destruct (onViewsRegistered s1); [|assumption].
  now apply viewsRegisteredCallback_Inv.
Qed.

Lemma enableForwardedPortsView_Inv s : Inv s -> Inv (enableForwardedPortsView s).
Proof.
  intros H. unfold enableForwardedPortsView. cbv zeta.
  assert (H1 : Inv (disposeContextKeyListener s)).
  { unfold disposeContextKeyListener.
    destruct (contextKeyListener s); [revert H; apply Inv_ext|]; trivial. }
  generalize dependent (disposeContextKeyListener s). intros s1 H1.
  destruct (truthy (remoteAuthority s1)); cbn.
  - destruct (viewEnabled s1).
    + destruct (viewContainerById s1); [|assumption].
      now apply registerViews_Inv.
    + revert H1. apply Inv_ext; reflexivity.
  - assumption.
Qed.

Lemma fireContextChange_Inv affects s : Inv s -> Inv (fireContextChange affects s).
Proof.
  unfold fireContextChange. apply fold_listeners_preserves.
  intros x Hx. destruct affects; [|assumption].
  now apply enableForwardedPortsView_Inv.
Qed.

Lemma step_Inv e s : Inv s -> Inv (step e s).
Proof.
  intros H. destruct e as [b| |a t|a|byId byViewId|names into];
    cbn [step]; cbv zeta.
  - apply fireContextChange_Inv. revert H. apply Inv_ext; reflexivity.
  - now apply fireContextChange_Inv.
  - assert (H1 : Inv (set_forwarded (<[a:=t]> (forwarded s)) s))
      by (revert H; apply Inv_ext; reflexivity).
    generalize dependent (set_forwarded (<[a:=t]> (forwarded s)) s).
    intros s1 H1. destruct (onForwardPort s1); [|assumption].
    now apply tunnelModelChanged_Inv.
  - assert (H1 : Inv (set_forwarded (delete a (forwarded s)) s))
      by (revert H; apply Inv_ext; reflexivity).
    generalize dependent (set_forwarded (delete a (forwarded s)) s).
    intros s1 H1. destruct (onClosePort s1); [|assumption].
    now apply tunnelModelChanged_Inv.
  - revert H. apply Inv_ext; reflexivity.
  - match goal with |- context [set_registeredViews ?v s] =>
      assert (H1 : Inv (set_registeredViews v s))
        by (revert H; apply Inv_ext; reflexivity);
      generalize dependent (set_registeredViews v s) end.
    intros s1 H1. destruct (onViewsRegistered s1); [|assumption].
    now apply viewsRegisteredCallback_Inv.
Qed.

Lemma run_Inv es s : Inv s -> Inv (run es s).
Proof.
  revert s. induction es as [|e es IH]; cbn; intros s H; [assumption|].
  apply IH. now apply step_Inv.
Qed.

Lemma constructor_Inv ra enabled fwd byId byViewId :
  Inv (constructor (initial ra enabled fwd byId byViewId)).
Proof.
  unfold constructor. apply enableForwardedPortsView_Inv.
  split; [|split]; cbn.
  - left. reflexivity.
  - reflexivity.
  - reflexivity.
Qed.

Lemma run_snoc es e s : run (es ++ [e]) s = step e (run es s).
Proof. unfold run. now rewrite fold_left_app. Qed.

(** *** Registration of the panel *)

Lemma panelRegistrations_ext s s' :
  panelPart s' = panelPart s -> panelRegistrations s' = panelRegistrations s.
Proof.
  unfold panelPart, panelRegistrations. intros E.
  injection E as _ _ _ _ -> _. reflexivity.
Qed.

Lemma watching_ext s s' : panelPart s' = panelPart s -> watching s -> watching s'.
Proof.
  intros E. unfold watching. rewrite (panelRegistrations_ext _ _ E).
  unfold panelPart in E. injection E as -> -> -> -> _ _. tauto.
Qed.

Lemma settled_ext n s s' : panelPart s' = panelPart s -> settled n s -> settled n s'.
Proof.
  intros E. unfold settled. rewrite (panelRegistrations_ext _ _ E).
  unfold panelPart in E. injection E as _ _ -> _ _ _. tauto.
Qed.

Lemma other_views_not_tunnel names :
  existsb is_tunnel_view (map OtherView names) = false.
Proof. induction names as [|n names IH]; cbn; auto. Qed.

Lemma other_views_not_counted names into (l : list (ViewId * string)) :
  List.filter (fun p => is_tunnel_view (fst p))
    (l ++ map (fun v => (v, into)) (map OtherView names)) =
  List.filter (fun p => is_tunnel_view (fst p)) l.
Proof.
  rewrite List.filter_app.
  assert (E : List.filter (fun p : ViewId * string => is_tunnel_view (fst p))
                (map (fun v => (v, into)) (map OtherView names)) = []).
  { induction names as [|n names IH]; cbn; auto. }
  rewrite E. apply app_nil_r.
Qed.

Lemma viewsRegisteredCallback_panel e s :
  panelPart (viewsRegisteredCallback e s) = panelPart s.
Proof.
  unfold viewsRegisteredCallback. destruct (existsb is_tunnel_view e); [|reflexivity].
  destruct (tunnelModelChanged_frame s) as (E & _). exact E.
Qed.

(** A step that does not involve the context-key listener or the
    registry's content for the tunnel view. *)
Lemma step_panel_frame e s :
  match e with SetViewEnabled _ => False | _ => True end ->
  contextListeners (step e s) = contextListeners s /\
  contextKeyListener (step e s) = contextKeyListener s /\
  remoteAuthority (step e s) = remoteAuthority s /\
  viewEnabled (step e s) = viewEnabled s /\
  panelRegistrations (step e s) = panelRegistrations s.
Proof.
  assert (P : forall x y, panelPart x = panelPart y ->
    contextListeners x = contextListeners y /\
    contextKeyListener x = contextKeyListener y /\
    remoteAuthority x = remoteAuthority y /\
    viewEnabled x = viewEnabled y /\
    panelRegistrations x = panelRegistrations y).
  { intros x y E. rewrite (panelRegistrations_ext _ _ E).
    unfold panelPart in E. injection E as -> -> -> -> _ _. repeat split. }
  destruct e as [b| |a t|a|byId byViewId|names into]; intros He;
    try contradiction; cbn [step]; cbv zeta.
  - unfold fireContextChange.
    assert (F : forall l x, fold_left (fun (s' : State) (_ : nat) => s') l x = x)
      by (induction l; cbn; auto).
    rewrite F. repeat split.
  - match goal with |- context [if ?b then _ else _] => destruct b end.
    + destruct (tunnelModelChanged_frame
                  (set_forwarded (<[a:=t]> (forwarded s)) s)) as (E & _).
      apply P in E. exact E.
    + repeat split.
  - match goal with |- context [if ?b then _ else _] => destruct b end.
    + destruct (tunnelModelChanged_frame
                  (set_forwarded (delete a (forwarded s)) s)) as (E & _).
      apply P in E. exact E.
    + repeat split.
  - repeat split.
  - assert (R : forall x, registeredViews x =
                  (registeredViews s ++
                   map (fun v => (v, into)) (map OtherView names))%list ->
                contextListeners x = contextListeners s ->
                contextKeyListener x = contextKeyListener s ->
                remoteAuthority x = remoteAuthority s ->
                viewEnabled x = viewEnabled s ->
                contextListeners x = contextListeners s /\
                contextKeyListener x = contextKeyListener s /\
                remoteAuthority x = remoteAuthority s /\
                viewEnabled x = viewEnabled s /\
                panelRegistrations x = panelRegistrations s).
    { intros x Hr -> -> -> ->. repeat split.
      unfold panelRegistrations. rewrite Hr. f_equal.
      apply other_views_not_counted. }
    match goal with |- context [if ?b then _ else _] => destruct b end.
    + unfold viewsRegisteredCallback. rewrite other_views_not_tunnel.
      apply R; reflexivity.
    + apply R; reflexivity.
Qed.

Lemma enableForwardedPortsView_rewatch s :
  watching s -> watching (enableForwardedPortsView s).
Proof.
  intros (Hr & Hv & (l & Hk & Hl) & Hn).
  unfold enableForwardedPortsView, disposeContextKeyListener,
    disposeContextListener, onDidChangeContext.
  rewrite Hk. cbn. rewrite Hr, Hv, Hl, drop_single. cbn.
  repeat split; try assumption. eexists. split; reflexivity.
Qed.

Lemma step_watching e s :
  e <> SetViewEnabled true -> watching s -> watching (step e s).
Proof.
  intros He Hw. destruct e as [[|]| |a t|a|byId byViewId|names into];
    try congruence.
  - cbn [step]. unfold fireContextChange, contextKeyListenerCallback.
    destruct Hw as (Hr & Hv & (l & Hk & Hl) & Hn).
    cbn [contextListeners set_viewEnabled]. rewrite Hl. cbn [fold_left].
    apply enableForwardedPortsView_rewatch.
    repeat split; cbn; try assumption. eexists. split; eassumption.
  - destruct (step_panel_frame OtherContextChange s I) as (E1 & E2 & E3 & E4 & E5).
    unfold watching. rewrite E1, E2, E3, E4, E5. exact Hw.
  - destruct (step_panel_frame (PortForwarded a t) s I) as (E1 & E2 & E3 & E4 & E5).
    unfold watching. rewrite E1, E2, E3, E4, E5. exact Hw.
  - destruct (step_panel_frame (PortClosed a) s I) as (E1 & E2 & E3 & E4 & E5).
    unfold watching. rewrite E1, E2, E3, E4, E5. exact Hw.
  - destruct (step_panel_frame (ViewContainersChanged byId byViewId) s I)
      as (E1 & E2 & E3 & E4 & E5).
    unfold watching. rewrite E1, E2, E3, E4, E5. exact Hw.
  - destruct (step_panel_frame (OtherViewsRegistered names into) s I)
      as (E1 & E2 & E3 & E4 & E5).
    unfold watching. rewrite E1, E2, E3, E4, E5. exact Hw.
Qed.

Lemma step_settled n e s : settled n s -> settled n (step e s).
Proof.
  intros (Hl & Hn). destruct e as [b| |a t|a|byId byViewId|names into].
  - cbn [step]. unfold fireContextChange.
    cbn [contextListeners set_viewEnabled]. rewrite Hl. cbn [fold_left].
    split; assumption.
  - destruct (step_panel_frame OtherContextChange s I) as (E1 & _ & _ & _ & E5).
    unfold settled. rewrite E1, E5. tauto.
  - destruct (step_panel_frame (PortForwarded a t) s I) as (E1 & _ & _ & _ & E5).
    unfold settled. rewrite E1, E5. tauto.
  - destruct (step_panel_frame (PortClosed a) s I) as (E1 & _ & _ & _ & E5).
    unfold settled. rewrite E1, E5. tauto.
  - destruct (step_panel_frame (ViewContainersChanged byId byViewId) s I)
      as (E1 & _ & _ & _ & E5).
    unfold settled. rewrite E1, E5. tauto.
  - destruct (step_panel_frame (OtherViewsRegistered names into) s I)
      as (E1 & _ & _ & _ & E5).
    unfold settled. rewrite E1, E5. tauto.
Qed.

Lemma run_watching es s :
  Forall (fun e => e <> SetViewEnabled true) es -> watching s -> watching (run es s).
Proof.
  intros H. revert s. induction H as [|e es He _ IH]; cbn; intros s Hw.
  - assumption.
  - apply IH. now apply step_watching.
Qed.

Lemma run_settled n es s : settled n s -> settled n (run es s).
Proof.
  revert s. induction es as [|e es IH]; cbn; intros s H; [assumption|].
  apply IH. now apply step_settled.
Qed.

Lemma disposeContextKeyListener_held s l :
  contextKeyListener s = Some l -> contextListeners s = [l] ->
  contextListeners (disposeContextKeyListener s) = [] /\
  remoteAuthority (disposeContextKeyListener s) = remoteAuthority s /\
  viewEnabled (disposeContextKeyListener s) = viewEnabled s /\
  viewContainerById (disposeContextKeyListener s) = viewContainerById s /\
  registeredViews (disposeContextKeyListener s) = registeredViews s.
Proof.
  intros Hk Hl. unfold disposeContextKeyListener, disposeContextListener.
  rewrite Hk. cbn. rewrite Hl, drop_single. repeat split.
Qed.

Lemma registerViews_settles c s :
  contextListeners s = [] -> panelRegistrations s = 0 ->
  settled 1 (registerViews [TunnelView] c s).
Proof.
  intros Hl Hn. unfold registerViews. cbv zeta.
  match goal with |- settled 1 (if ?b then viewsRegisteredCallback ?e ?x else ?x) =>
    assert (Hx : settled 1 x); [|destruct b; [|exact Hx]] end.
  - split; [exact Hl|]. unfold panelRegistrations in *.
    cbn [registeredViews set_registeredViews].
    rewrite List.filter_app, length_app, Hn. reflexivity.
  - revert Hx. apply settled_ext. apply viewsRegisteredCallback_panel.
Qed.

Lemma enableForwardedPortsView_settles s l :
  truthy (remoteAuthority s) = true -> viewEnabled s = true ->
  contextKeyListener s = Some l -> contextListeners s = [l] ->
  panelRegistrations s = 0 ->
  settled (match viewContainerById s with Some _ => 1 | None => 0 end)
    (enableForwardedPortsView s).
Proof.
  intros Hr Hv Hk Hl Hn.
  unfold enableForwardedPortsView. cbv zeta.
  destruct (disposeContextKeyListener_held s l Hk Hl) as (E1 & E2 & E3 & E4 & E5).
  assert (Hn1 : panelRegistrations (disposeContextKeyListener s) = 0)
    by (unfold panelRegistrations; rewrite E5; exact Hn).
  revert E1 E2 E3 E4 Hn1. clear E5.
  generalize (disposeContextKeyListener s).
  intros s1 E1 E2 E3 E4 Hn1. rewrite E2, E3, E4, Hr, Hv. cbn [andb].
  destruct (viewContainerById s) as [c|].
  - now apply registerViews_settles.
  - split; assumption.
Qed.

Lemma fireContextChange_single affects s l :
  contextListeners s = [l] ->
  fireContextChange affects s = contextKeyListenerCallback affects s.
Proof. unfold fireContextChange. intros ->. reflexivity. Qed.

Lemma step_SetViewEnabled_single b s l :
  contextListeners s = [l] ->
  step (SetViewEnabled b) s = enableForwardedPortsView (set_viewEnabled b s).
Proof.
  intros Hl. cbn [step].
  now rewrite (fireContextChange_single true (set_viewEnabled b s) l Hl).
Qed.

Lemma enableForwardedPortsView_flag_true s l :
  truthy (remoteAuthority s) = true ->
  contextKeyListener s = Some l -> contextListeners s = [l] ->
  panelRegistrations s = 0 ->
  settled (match viewContainerById s with Some _ => 1 | None => 0 end)
    (enableForwardedPortsView (set_viewEnabled true s)).
Proof.
  intros Hr Hk Hl Hn.
  now apply (enableForwardedPortsView_settles (set_viewEnabled true s) l).
Qed.

(** The flag turns true while the object is watching. *)
Lemma flag_true_settles s :
  watching s ->
  settled (match viewContainerById s with Some _ => 1 | None => 0 end)
    (step (SetViewEnabled true) s).
Proof.
  intros (Hr & Hv & (l & Hk & Hl) & Hn).
  rewrite (step_SetViewEnabled_single true s l Hl).
  now apply (enableForwardedPortsView_flag_true s l).
Qed.

Lemma enableForwardedPortsView_starts_watching s :
  contextKeyListener s = None -> contextListeners s = [] ->
  truthy (remoteAuthority s) = true -> viewEnabled s = false ->
  panelRegistrations s = 0 ->
  watching (enableForwardedPortsView s).
Proof.
  intros Hk Hl Hr Hv Hn.
  unfold enableForwardedPortsView, disposeContextKeyListener.
  rewrite Hk. cbv zeta. rewrite Hr, Hv. cbn [andb].
  unfold watching, onDidChangeContext, panelRegistrations in *. cbn.
  rewrite Hl. repeat split; try assumption.
  eexists. split; reflexivity.
Qed.

Lemma constructor_watching ra fwd byId byViewId :
  truthy ra = true -> watching (constructor (initial ra false fwd byId byViewId)).
Proof.
  intros Hr. unfold constructor.
  apply enableForwardedPortsView_starts_watching; try reflexivity.
  exact Hr.
Qed.

(** *** Properties of the forwarded-ports view *)

Lemma tunnelModelChanged_synced s : Inv s -> synced (tunnelModelChanged s).
Proof.
  intros (Hb & Hs & _).
  destruct (updateActivityBadge_shown s Hb) as (Ha & _).
  destruct (updateActivityBadge_frame s) as (_ & Es & _ & Et & _).
  destruct (updateStatusBar_frame (updateActivityBadge s)) as (_ & Eb & _ & Et' & _).
  assert (Hs' : status_ok (updateActivityBadge s))
    by (eapply status_ok_ext; eassumption).
  destruct (updateStatusBar_shown _ Hs') as (Hl & _).
  unfold synced, tunnelModelChanged. cbv zeta.
  unfold badgePart in Eb. injection Eb as -> _.
  unfold tunnelPart in Et, Et'. rewrite Et in Et'. injection Et' as -> ->.
  injection Et as Ef _. rewrite Ef in Hl. rewrite Ha. clear Ha Ef.
  set (l := statusbarEntries (updateStatusBar (updateActivityBadge s))) in *.
  assert (Hbadge : forall c, number (badgeFor s c) = size (forwarded s) /\
                             label (badgeFor s c) = badgeLabel (size (forwarded s)))
    by (intros c; split; reflexivity).
  destruct (size (forwarded s)) as [|n] eqn:En; cbn in Hl |- *.
  - destruct l; [|discriminate].
    split; [|split; [|split; [|split; [|split]]]]; cbn; try lia; try tauto.
    + split; [intros (a & E & _); discriminate | intros (Hlt & _); lia].
    + split; [intros _ (Hlt & _); lia | reflexivity].
  - destruct l as [|x [|y l]]; try discriminate.
    destruct (viewContainerByViewId s) as [c|].
    + split; [|split; [|split; [|split; [|split]]]]; cbn; try lia.
      * split; [intros _; split; [lia|eauto] |].
        intros _. exists (badgeFor s c). split; [reflexivity|]. apply Hbadge.
      * split; [discriminate|]. intros H. exfalso. apply H. split; [lia|eauto].
      * split; [discriminate|lia].
    + split; [|split; [|split; [|split; [|split]]]]; cbn; try lia.
      * split; [intros (a & E & _); discriminate|].
        intros (_ & x' & Hx). discriminate.
      * split; [|reflexivity]. intros _ (_ & x' & Hx). discriminate.
      * split; [discriminate|lia].
Qed.

(** C4 (amended): after every tunnel-model change notification, from any
    state the object can be in, the activity badge shows the current size of
    the forwarded set exactly when that size is greater than zero and the
    view-container lookup for the tunnel view succeeds, and no badge is shown
    otherwise; a status-bar entry is present exactly when the size is greater
    than zero; neither is ever duplicated. *)
Theorem C4_badge_and_status_after_notification
    ra enabled fwd byId byViewId (es : list Event) :
  let s := run es (constructor (initial ra enabled fwd byId byViewId)) in
  (forall a t, synced (step (PortForwarded a t) s)) /\
  (forall a, synced (step (PortClosed a) s)).
Proof.
  intros s.
  assert (H : Inv s) by (apply run_Inv, constructor_Inv).
  assert (Hw : onForwardPort s = true /\ onClosePort s = true).
  { destruct H as (_ & _ & Hw). unfold wiring in Hw. injection Hw as -> ->. auto. }
  destruct Hw as (Hf & Hc). split.
  - intros a t. cbn [step]. cbv zeta.
    cbn [onForwardPort set_forwarded]. rewrite Hf.
    apply tunnelModelChanged_synced. revert H. apply Inv_ext; reflexivity.
  - intros a. cbn [step]. cbv zeta.
    cbn [onClosePort set_forwarded]. rewrite Hc.
    apply tunnelModelChanged_synced. revert H. apply Inv_ext; reflexivity.
Qed.

(** C4 as stated fails: in a remote window whose capability flag is false
    the panel is not registered and the view container of the tunnel view is
    not found; a port is forwarded, the forwarded set has size one and no
    badge is shown (the status-bar entry is). *)
Lemma C4_counterexample :
  let s := step (PortForwarded "localhost:3000" devServer)
             (constructor (initial (Some "ssh-remote+box") false ∅
                             (Some remoteContainer) None)) in
  size (forwarded s) = 1 /\ activities s = [] /\ statusbarEntries s = [1].
Proof. vm_compute. repeat split. Qed.

(** C9: at most one activity badge exists in every state the object can be
    in; each call of [updateActivityBadge] starts by disposing the badge shown
    before, so the activity service shows none at that point, and at most one
    afterwards. *)
Theorem C9_at_most_one_activity_badge
    ra enabled fwd byId byViewId (es : list Event) :
  let s := run es (constructor (initial ra enabled fwd byId byViewId)) in
  length (activities s) <= 1 /\
  activities (disposeActivityBadge s) = [] /\
  length (activities (updateActivityBadge s)) <= 1.
Proof.
  intros s.
  assert (H : Inv s) by (apply run_Inv, constructor_Inv).
  destruct H as (Hb & _ & _).
  split; [|split].
  - destruct Hb as [-> | (a & -> & _)]; cbn; lia.
  - now apply disposeActivityBadge_clears.
  - destruct (updateActivityBadge_shown s Hb) as (_ & [-> | (a & -> & _)]);
      cbn; lia.
Qed.

(** C10: with a non-empty forwarded set, [updateActivityBadge] shows the
    badge only when [getViewContainerByViewId] finds the container of the
    tunnel view; when it returns nothing no badge is shown although the count
    is positive. *)
Theorem C10_badge_needs_view_container
    ra enabled fwd byId byViewId (es : list Event) :
  let s := run es (constructor (initial ra enabled fwd byId byViewId)) in
  0 < size (forwarded s) ->
  (viewContainerByViewId s = None -> activities (updateActivityBadge s) = []) /\
  (forall c, viewContainerByViewId s = Some c ->
             activities (updateActivityBadge s) = [badgeFor s c]).
Proof.
  intros s Hn.
  assert (H : Inv s) by (apply run_Inv, constructor_Inv).
  destruct H as (Hb & _ & _).
  destruct (updateActivityBadge_shown s Hb) as (Ha & _).
  rewrite Ha. apply Nat.ltb_lt in Hn. rewrite Hn.
  split.
  - intros ->. reflexivity.
  - intros c ->. reflexivity.
Qed.

(** C10 at a concrete state: one port is forwarded and the view container
    of the tunnel view is not found. *)
Lemma C10_witness :
  let s := run [PortForwarded "localhost:3000" devServer]
             (constructor (initial (Some "ssh-remote+box") false ∅
                             (Some remoteContainer) None)) in
  size (forwarded s) = 1 /\ activities (updateActivityBadge s) = [].
Proof.
  intros s. split; [reflexivity|].
  apply (C10_badge_needs_view_container (Some "ssh-remote+box") false ∅
           (Some remoteContainer) None
           [PortForwarded "localhost:3000" devServer]).
  - vm_compute. lia.
  - reflexivity.
Defined.

(** C5 (amended): in a remote session that starts with the capability flag
    false the panel is not registered, however many events arrive that leave
    the flag false; when the flag then becomes true and
    [getViewContainerById(VIEWLET_ID)] returns a container, the panel is
    registered, and it stays registered exactly once whatever events follow,
    further changes of the flag included. *)
Theorem C5_panel_registered_once
    ra fwd byId byViewId (es1 es2 : list Event) :
  truthy ra = true ->
  Forall (fun e => e <> SetViewEnabled true) es1 ->
  let s1 := run es1 (constructor (initial ra false fwd byId byViewId)) in
  panelRegistrations s1 = 0 /\
  (is_Some (viewContainerById s1) ->
   panelRegistrations (run (SetViewEnabled true :: es2) s1) = 1).
Proof.
  intros Hr Hes s1.
  assert (Hw : watching s1) by (apply run_watching, constructor_watching; assumption).
  split.
  - apply Hw.
  - intros (c & Hc). cbn [run fold_left].
    pose proof (flag_true_settles s1 Hw) as Hs. rewrite Hc in Hs.
    apply (run_settled 1 es2) in Hs. apply Hs.
Qed.

(** C5 at a concrete run: the flag is set to false again, then to true,
    then flipped four more times. *)
Lemma C5_witness :
  let es1 := [SetViewEnabled false; OtherContextChange] in
  let es2 := [SetViewEnabled false; SetViewEnabled true; SetViewEnabled false;
              SetViewEnabled true] in
  let s1 := run es1 (constructor (initial (Some "ssh-remote+box") false ∅
                                    (Some remoteContainer) None)) in
  panelRegistrations s1 = 0 /\
  panelRegistrations (run (SetViewEnabled true :: es2) s1) = 1.
Proof.
  intros es1 es2 s1.
  assert (Hr : truthy (Some "ssh-remote+box") = true) by reflexivity.
  assert (Hes : Forall (fun e => e <> SetViewEnabled true) es1)
    by (repeat constructor; discriminate).
  destruct (C5_panel_registered_once (Some "ssh-remote+box") ∅
              (Some remoteContainer) None es1 es2 Hr Hes) as (H0 & H1).
  split; [exact H0|].
  apply H1. exists remoteContainer. vm_compute. reflexivity.
Defined.

(** C5 as stated fails: when [getViewContainerById(VIEWLET_ID)] returns
    nothing at the moment the flag becomes true, the panel is not registered,
    and later changes of the flag do not register it either. *)
Lemma C5_counterexample :
  let s0 := constructor (initial (Some "ssh-remote+box") false ∅ None None) in
  panelRegistrations (run [SetViewEnabled true] s0) = 0 /\
  panelRegistrations
    (run [SetViewEnabled true; ViewContainersChanged (Some remoteContainer) None;
          SetViewEnabled false; SetViewEnabled true] s0) = 0.
Proof. vm_compute. split; reflexivity. Qed.

(** A scenario of the spec: in a remote window whose panel is registered a
    port is forwarded; the badge reads "1 forwarded port" and the status-bar
    entry appears.  A second port changes the badge, not the entry; closing
    both removes badge and entry. *)
Example forward_shows_badge_and_entry :
  let s0 := constructor (initial (Some "ssh-remote+box") true ∅
                           (Some remoteContainer) (Some remoteContainer)) in
  let s1 := run [PortForwarded "localhost:3000" devServer] s0 in
  let s2 := run [PortForwarded "localhost:3001" devServer] s1 in
  let s3 := run [PortClosed "localhost:3000"; PortClosed "localhost:3001"] s2 in
  (map label (activities s1) = ["1 forwarded port"] /\
   length (statusbarEntries s1) = 1) /\
  (map label (activities s2) = ["2 forwarded ports"] /\
   statusbarEntries s2 = statusbarEntries s1) /\
  (activities s3 = [] /\ statusbarEntries s3 = []).
Proof. vm_compute. repeat split. Qed.

(** ** Further properties of [ForwardedPortsView] *)

(** *** The shape of the registration state *)

Lemma Shape_ext s s' :
  panelPart s' = panelPart s -> onViewsRegistered s' = onViewsRegistered s ->
  Shape s -> Shape s'.
Proof.
  intros E Ev. unfold Shape, listener_ok, registration_ok.
  rewrite (panelRegistrations_ext _ _ E), Ev.
  unfold panelPart in E. injection E as _ _ -> -> _ _. tauto.
Qed.

Lemma disposeContextKeyListener_clears s :
  listener_ok s ->
  contextListeners (disposeContextKeyListener s) = [] /\
  contextKeyListener (disposeContextKeyListener s) = None.
Proof.
  unfold listener_ok, disposeContextKeyListener, disposeContextListener.
  destruct (contextKeyListener s) as [l|] eqn:E; cbn; intros ->;
    rewrite ?drop_single; auto.
Qed.

Lemma disposeContextKeyListener_frame s :
  remoteAuthority (disposeContextKeyListener s) = remoteAuthority s /\
  viewEnabled (disposeContextKeyListener s) = viewEnabled s /\
  viewContainerById (disposeContextKeyListener s) = viewContainerById s /\
  registeredViews (disposeContextKeyListener s) = registeredViews s /\
  onViewsRegistered (disposeContextKeyListener s) = onViewsRegistered s /\
  badgePart (disposeContextKeyListener s) = badgePart s /\
  statusPart (disposeContextKeyListener s) = statusPart s /\
  wiring (disposeContextKeyListener s) = wiring s /\
  tunnelPart (disposeContextKeyListener s) = tunnelPart s /\
  _store (disposeContextKeyListener s) = _store s.
Proof.
  unfold disposeContextKeyListener. destruct (contextKeyListener s); repeat split.
Qed.

(** Registering the tunnel view while the listener of lines 78-84 is
    subscribed runs the two updates and disposes that listener. *)
Lemma registerViews_tunnel c s :
  onViewsRegistered s = true ->
  registerViews [TunnelView] c s =
    set_onViewsRegistered false
      (tunnelModelChanged
         (set_registeredViews
            (registeredViews s ++ [(TunnelView, container_id c)]) s)).
Proof. intros H. unfold registerViews. cbv zeta. cbn. now rewrite H. Qed.

Lemma enableForwardedPortsView_outcome s : Outcome s (enableForwardedPortsView s).
Proof.
  unfold enableForwardedPortsView. cbv zeta.
  destruct (disposeContextKeyListener_frame s) as (Er & Ev & Ec & _).
  rewrite Er, Ev, Ec.
  destruct (truthy (remoteAuthority s)) eqn:Hr; cbn [andb].
  - destruct (viewEnabled s) eqn:Hv.
    + destruct (viewContainerById s) as [c|] eqn:Hc.
      * now eapply Registered.
      * now apply NoContainer.
    + now apply Listening.
  - now apply NotRemote.
Qed.

Lemma registerViews_tunnel_state c s :
  onViewsRegistered s = true -> panelRegistrations s = 0 ->
  contextListeners (registerViews [TunnelView] c s) = contextListeners s /\
  contextKeyListener (registerViews [TunnelView] c s) = contextKeyListener s /\
  panelRegistrations (registerViews [TunnelView] c s) = 1 /\
  onViewsRegistered (registerViews [TunnelView] c s) = false.
Proof.
  intros Hv Hn. rewrite (registerViews_tunnel c s Hv).
  set (y := set_registeredViews _ s).
  destruct (tunnelModelChanged_frame y) as (E & _).
  assert (E' : panelPart (set_onViewsRegistered false (tunnelModelChanged y)) =
               panelPart y) by exact E.
  rewrite (panelRegistrations_ext _ _ E').
  cbn [contextListeners contextKeyListener onViewsRegistered set_onViewsRegistered].
  unfold panelPart in E. injection E as _ _ -> -> _ _.
  repeat split. unfold panelRegistrations, y in *.
  cbn [registeredViews set_registeredViews].
  rewrite List.filter_app, length_app, Hn. reflexivity.
Qed.

Lemma enableForwardedPortsView_Shape s :
  listener_ok s -> panelRegistrations s = 0 -> onViewsRegistered s = true ->
  Shape (enableForwardedPortsView s).
Proof.
  intros Hl Hn Hv.
  destruct (disposeContextKeyListener_clears s Hl) as (El & Ek).
  destruct (disposeContextKeyListener_frame s) as (_ & _ & _ & Er & Eo & _).
  assert (Hn1 : panelRegistrations (disposeContextKeyListener s) = 0)
    by (unfold panelRegistrations in *; now rewrite Er).
  rewrite <- Eo in Hv.
  destruct (enableForwardedPortsView_outcome s) as [c s1 -> _ _ _ | s1 -> _ _ _
                                                    | s1 -> _ _ | s1 -> _].
  - destruct (registerViews_tunnel_state c _ Hv Hn1) as (E1 & E2 & E3 & E4).
    unfold Shape, listener_ok, registration_ok.
    rewrite E1, E2, E3, E4, El, Ek. split; [reflexivity|]. right. auto.
  - unfold Shape, listener_ok, registration_ok. rewrite El, Ek, Hn1, Hv.
    split; [reflexivity|]. left. auto.
  - unfold Shape, listener_ok, registration_ok, onDidChangeContext,
      panelRegistrations in *. cbn. rewrite El, Hn1, Hv.
    split; [reflexivity|]. left. auto.
  - unfold Shape, listener_ok, registration_ok. rewrite El, Ek, Hn1, Hv.
    split; [reflexivity|]. left. auto.
Qed.

Lemma step_views_listener_frame e s :
  match e with SetViewEnabled _ => False | _ => True end ->
  onViewsRegistered (step e s) = onViewsRegistered s.
Proof.
  destruct e as [b| |a t|a|byId byViewId|names into]; intros He;
    try contradiction; cbn [step]; cbv zeta.
  - unfold fireContextChange, contextKeyListenerCallback.
    generalize (contextListeners s). intros l. revert s.
    induction l as [|x l IH]; cbn; auto.
  - match goal with |- context [if ?b then _ else _] => destruct b end;
      [|reflexivity].
    now destruct (tunnelModelChanged_frame
                    (set_forwarded (<[a:=t]> (forwarded s)) s)) as (_ & _ & _ & ->).
  - match goal with |- context [if ?b then _ else _] => destruct b end;
      [|reflexivity].
    now destruct (tunnelModelChanged_frame
                    (set_forwarded (delete a (forwarded s)) s)) as (_ & _ & _ & ->).
  - reflexivity.
  - match goal with |- context [if ?b then _ else _] => destruct b end;
      [|reflexivity].
    unfold viewsRegisteredCallback. now rewrite other_views_not_tunnel.
Qed.

Lemma step_Shape e s : Shape s -> Shape (step e s).
Proof.
  intros H.
  assert (Hframe : match e with SetViewEnabled _ => False | _ => True end ->
                   Shape (step e s)).
  { intros He. destruct (step_panel_frame e s He) as (E1 & E2 & _ & _ & E5).
    pose proof (step_views_listener_frame e s He) as E6.
    unfold Shape, listener_ok, registration_ok in *.
    rewrite E1, E2, E5, E6. exact H. }
  destruct e as [b| | | | |]; try (apply Hframe; exact I).
  destruct H as (Hl & Hr).
  destruct (contextListeners s) as [|l [|l' ls]] eqn:El.
  - cbn [step]. unfold fireContextChange.
    cbn [contextListeners set_viewEnabled]. rewrite El. cbn [fold_left].
    clear Hframe.
    unfold Shape, listener_ok, registration_ok, panelRegistrations in *.
    cbn. rewrite El in *. split; [exact Hl | exact Hr].
  - rewrite (step_SetViewEnabled_single b s l El).
    destruct Hr as [(Hn & Hv) | (_ & _ & Hc)]; [|congruence].
    apply enableForwardedPortsView_Shape.
    + unfold listener_ok in *. cbn. congruence.
    + exact Hn.
    + exact Hv.
  - unfold listener_ok in Hl. destruct (contextKeyListener s); congruence.
Qed.

Lemma run_Shape es s : Shape s -> Shape (run es s).
Proof.
  revert s. induction es as [|e es IH]; cbn; intros s H; [assumption|].
  apply IH. now apply step_Shape.
Qed.

Lemma constructor_Shape ra enabled fwd byId byViewId :
  Shape (constructor (initial ra enabled fwd byId byViewId)).
Proof.
  unfold constructor. apply enableForwardedPortsView_Shape; reflexivity.
Qed.

Lemma disposeContextKeyListener_display s :
  displayPart (disposeContextKeyListener s) = displayPart s.
Proof.
  unfold disposeContextKeyListener. destruct (contextKeyListener s); reflexivity.
Qed.

Lemma disposeContextKeyListener_Inv s : Inv s -> Inv (disposeContextKeyListener s).
Proof.
  destruct (disposeContextKeyListener_frame s)
    as (_ & _ & _ & _ & _ & Eb & Es & Ew & _).
  now apply Inv_ext.
Qed.



Section DisplayInvariant.

Variable P : State -> Prop.
Hypothesis P_ext : forall s s', displayPart s' = displayPart s -> P s -> P s'.
Hypothesis P_update : forall s, Inv s -> P s -> P (tunnelModelChanged s).
Hypothesis P_forward :
  forall m s, Inv s -> P s -> P (tunnelModelChanged (set_forwarded m s)).

Lemma enableForwardedPortsView_display s :
  Inv s -> P s -> P (enableForwardedPortsView s).
Proof.
  intros Hi Hp.
  apply disposeContextKeyListener_Inv in Hi.
  apply (P_ext _ _ (disposeContextKeyListener_display s)) in Hp.
  destruct (enableForwardedPortsView_outcome s) as [c s1 -> _ _ _ | s1 -> _ _ _
                                                    | s1 -> _ _ | s1 -> _].
  - revert Hi Hp. generalize (disposeContextKeyListener s). intros s1 Hi Hp.
    unfold registerViews. cbv zeta.
    match goal with |- P (if ?b then viewsRegisteredCallback ?e ?y else ?y) =>
      assert (Hy : Inv y /\ P y)
        by (split; [revert Hi; apply Inv_ext | revert Hp; apply P_ext]; reflexivity);
      destruct b; [|apply Hy] end.
    unfold viewsRegisteredCallback. cbn [existsb is_tunnel_view orb].
    destruct Hy as (Hyi & Hyp). apply (P_update _ Hyi) in Hyp.
    revert Hyp. apply P_ext. reflexivity.
  - exact Hp.
  - revert Hp. apply P_ext. reflexivity.
  - exact Hp.
Qed.

Lemma step_display e s : Inv s -> P s -> P (step e s).
Proof.
  intros Hi Hp.
  assert (Hw : onForwardPort s = true /\ onClosePort s = true).
  { destruct Hi as (_ & _ & Hw). unfold wiring in Hw. now injection Hw as -> ->. }
  destruct Hw as (Hf & Hc).
  destruct e as [b| |a t|a|byId byViewId|names into]; cbn [step]; cbv zeta.
  - assert (H : Inv (set_viewEnabled b s) /\ P (set_viewEnabled b s))
      by (split; [revert Hi; apply Inv_ext | revert Hp; apply P_ext]; reflexivity).
    unfold fireContextChange, contextKeyListenerCallback.
    apply (fold_listeners_preserves (fun x => Inv x /\ P x)
             enableForwardedPortsView).
    + intros x (Hxi & Hxp). split.
      * now apply enableForwardedPortsView_Inv.
      * now apply enableForwardedPortsView_display.
    + exact H.
  - assert (F : forall l x,
               fold_left (fun (s' : State) (_ : nat) =>
                            contextKeyListenerCallback false s') l x = x)
      by (induction l; cbn; auto).
    unfold fireContextChange. now rewrite F.
  - cbn [onForwardPort set_forwarded]. rewrite Hf. now apply P_forward.
  - cbn [onClosePort set_forwarded]. rewrite Hc. now apply P_forward.
  - revert Hp. apply P_ext. reflexivity.
  - match goal with |- P (if ?b then viewsRegisteredCallback ?e ?y else ?y) =>
      assert (Hy : P y) by (revert Hp; apply P_ext; reflexivity);
      destruct b; [|apply Hy] end.
    unfold viewsRegisteredCallback. now rewrite other_views_not_tunnel.
Qed.

Lemma run_display es s : Inv s -> P s -> P (run es s).
Proof.
  revert s. induction es as [|e es IH]; cbn; intros s Hi Hp; [assumption|].
  apply IH; [now apply step_Inv | now apply step_display].
Qed.

Lemma constructor_display ra enabled fwd byId byViewId :
  P (enableBadgeAndStatusBar
       (_register WelcomeContent (initial ra enabled fwd byId byViewId))) ->
  P (constructor (initial ra enabled fwd byId byViewId)).
Proof.
  intros Hp. unfold constructor.
  apply enableForwardedPortsView_display; [|exact Hp].
  split; [|split]; cbn; [left|..]; reflexivity.
Qed.

End DisplayInvariant.

(** *** Three facts about what is displayed *)

Lemma tunnelModelChanged_statusSynced s : Inv s -> statusSynced (tunnelModelChanged s).
Proof.
  intros (_ & Hs & _). unfold statusSynced, tunnelModelChanged.
  destruct (updateActivityBadge_frame s) as (_ & Es & _ & Et & _).
  destruct (updateStatusBar_frame (updateActivityBadge s)) as (_ & _ & _ & Et' & _).
  assert (Hs' : status_ok (updateActivityBadge s))
    by (eapply status_ok_ext; eassumption).
  destruct (updateStatusBar_shown _ Hs') as (Hl & _).
  unfold tunnelPart in Et, Et'. injection Et as Ef _. injection Et' as Ef' _.
  now rewrite Hl, Ef', Ef.
Qed.

Lemma statusSynced_ext s s' :
  displayPart s' = displayPart s -> statusSynced s -> statusSynced s'.
Proof.
  unfold displayPart, statusSynced. intros E. injection E as _ -> -> _. tauto.
Qed.

Lemma step_statusSynced e s : Inv s -> statusSynced s -> statusSynced (step e s).
Proof.
  apply (step_display statusSynced).
  - apply statusSynced_ext.
  - intros x Hi _. now apply tunnelModelChanged_statusSynced.
  - intros m x Hi _. apply tunnelModelChanged_statusSynced.
    revert Hi. apply Inv_ext; reflexivity.
Qed.

Lemma updateActivityBadge_store s :
  _store (updateActivityBadge s) = _store s /\
  statusbarEntries (updateActivityBadge s) = statusbarEntries s.
Proof.
  unfold updateActivityBadge, disposeActivityBadge, disposeActivity.
  repeat case_match; split; reflexivity.
Qed.

Lemma updateStatusBar_store s : store_ok s -> store_ok (updateStatusBar s).
Proof.
  intros (H1 & H2 & H3 & H4). unfold updateStatusBar, addEntry, disposeEntry.
  destruct (undefined (entryAccessor s) && (0 <? size (forwarded s))%nat).
  - unfold store_ok. cbn. repeat split; auto.
    intros h [<- | Hh]; [now left | right; auto].
  - destruct (entryAccessor s) as [h|]; [|now repeat split].
    destruct (size (forwarded s) =? 0)%nat; [|now repeat split].
    unfold store_ok. cbn. repeat split; auto.
    intros x Hx. apply H4. unfold drop in Hx. now apply List.filter_In in Hx.
Qed.

Lemma store_ok_ext s s' : displayPart s' = displayPart s -> store_ok s -> store_ok s'.
Proof.
  unfold displayPart, store_ok. intros E. injection E as _ -> _ ->. tauto.
Qed.

Lemma tunnelModelChanged_store s : store_ok s -> store_ok (tunnelModelChanged s).
Proof.
  intros H. unfold tunnelModelChanged. apply updateStatusBar_store.
  destruct (updateActivityBadge_store s) as (E1 & E2).
  unfold store_ok in *. now rewrite E1, E2.
Qed.

Lemma step_store_ok e s : Inv s -> store_ok s -> store_ok (step e s).
Proof.
  apply (step_display store_ok).
  - apply store_ok_ext.
  - intros x _. apply tunnelModelChanged_store.
  - intros m x _ H. apply tunnelModelChanged_store. exact H.
Qed.

Lemma updateActivityBadge_labelled s :
  badges_labelled s -> badges_labelled (updateActivityBadge s).
Proof.
  intros H.
  assert (H1 : badges_labelled (disposeActivityBadge s)).
  { unfold disposeActivityBadge, disposeActivity.
    destruct (_activityBadge s); [|exact H].
    intros a Ha. cbn in Ha. apply List.filter_In in Ha as (Ha & _). now apply H. }
  unfold updateActivityBadge. cbv zeta.
  revert H1. generalize (disposeActivityBadge s). intros s1 H1.
  destruct (0 <? size (forwarded s1))%nat eqn:Hn; [|exact H1].
  destruct (viewContainerByViewId s1) as [c|]; [|exact H1].
  unfold showViewContainerActivity. intros a [<- | Ha].
  - cbn. split; [now apply Nat.ltb_lt | reflexivity].
  - now apply H1.
Qed.

Lemma badges_labelled_ext s s' :
  displayPart s' = displayPart s -> badges_labelled s -> badges_labelled s'.
Proof.
  unfold displayPart, badges_labelled. intros E. injection E as -> _ _ _. tauto.
Qed.

Lemma tunnelModelChanged_labelled s :
  badges_labelled s -> badges_labelled (tunnelModelChanged s).
Proof.
  intros H. apply updateActivityBadge_labelled in H.
  unfold tunnelModelChanged.
  destruct (updateStatusBar_frame (updateActivityBadge s)) as (_ & Eb & _).
  unfold badgePart in Eb. injection Eb as Ea _.
  unfold badges_labelled in *. now rewrite Ea.
Qed.

Lemma step_labelled e s : Inv s -> badges_labelled s -> badges_labelled (step e s).
Proof.
  apply (step_display badges_labelled).
  - apply badges_labelled_ext.
  - intros x _. apply tunnelModelChanged_labelled.
  - intros m x _ H. apply tunnelModelChanged_labelled. exact H.
Qed.

Lemma append_length (a b : string) :
  String.length (a ++ b) = String.length a + String.length b.
Proof. induction a as [|c a IH]; simpl; [reflexivity | now rewrite IH]. Qed.

(** The label is the singular one exactly for one port. *)
Lemma badgeLabel_singular n : badgeLabel n = "1 forwarded port" <-> n = 1.
Proof.
  unfold badgeLabel. destruct (Nat.eqb_spec n 1) as [-> | Hne].
  - tauto.
  - split; [|contradiction]. intros E. exfalso.
    pose proof (f_equal String.length E) as El. rewrite append_length in El.
    cbn in El. destruct (pretty n) as [|c p] eqn:Ep; [|cbn in El; lia].
    cbn in E. discriminate.
Qed.



Lemma enableForwardedPortsView_never s :
  listener_ok s -> panelRegistrations s = 0 ->
  truthy (remoteAuthority s) = false \/
  (viewEnabled s = true /\ viewContainerById s = None) ->
  settled 0 (enableForwardedPortsView s).
Proof.
  intros Hl Hn Hcase.
  destruct (disposeContextKeyListener_clears s Hl) as (El & _).
  destruct (disposeContextKeyListener_frame s) as (_ & _ & _ & Er & _).
  assert (Hs1 : settled 0 (disposeContextKeyListener s))
    by (split; [exact El | unfold panelRegistrations in *; now rewrite Er]).
  destruct (enableForwardedPortsView_outcome s) as [c s1 -> Hr Hen Hc | s1 -> Hr Hen Hc
                                                    | s1 -> Hr Hen | s1 -> Hr].
  - destruct Hcase as [H | (_ & H)]; congruence.
  - exact Hs1.
  - destruct Hcase as [H | (H & _)]; congruence.
  - exact Hs1.
Qed.

(** *** Properties of the view beyond the claims *)

(** X1: in every state the object can be in, its context-key subscriptions
    are the one stored in [contextKeyListener], or none: a listener is never
    subscribed twice and never left behind by [enableForwardedPortsView]. *)
Theorem X1_single_context_key_listener
    ra enabled fwd byId byViewId (es : list Event) :
  let s := run es (constructor (initial ra enabled fwd byId byViewId)) in
  contextListeners s =
    match contextKeyListener s with Some l => [l] | None => [] end /\
  length (contextListeners s) <= 1.
Proof.
  intros s.
  assert (H : Shape s) by (apply run_Shape, constructor_Shape).
  destruct H as (Hl & _). split; [exact Hl|].
  rewrite Hl. destruct (contextKeyListener s); cbn; lia.
Qed.

(** X2: whatever the window, the flag and the events, the panel is
    registered at most once, and once it is registered the object holds no
    context-key listener any more. *)
Theorem X2_panel_registered_at_most_once
    ra enabled fwd byId byViewId (es : list Event) :
  let s := run es (constructor (initial ra enabled fwd byId byViewId)) in
  panelRegistrations s <= 1 /\
  (panelRegistrations s = 1 ->
   contextListeners s = [] /\ contextKeyListener s = None).
Proof.
  intros s.
  assert (H : Shape s) by (apply run_Shape, constructor_Shape).
  destruct H as (Hl & [(Hn & _) | (Hn & _ & Hc)]).
  - split; [lia|]. intros H1. congruence.
  - split; [lia|]. intros _. split; [exact Hc|].
    unfold listener_ok in Hl. rewrite Hc in Hl.
    destruct (contextKeyListener s); [discriminate | reflexivity].
Qed.

(** X3: in a window without a remote authority (undefined, or the empty
    string) the panel is never registered and the object never subscribes to
    context-key changes, whatever the flag does. *)
Theorem X3_local_window_never_registers
    ra enabled fwd byId byViewId (es : list Event) :
  truthy ra = false ->
  let s := run es (constructor (initial ra enabled fwd byId byViewId)) in
  panelRegistrations s = 0 /\ contextListeners s = [] /\
  contextKeyListener s = None.
Proof.
  intros Hr s.
  assert (H0 : settled 0 (constructor (initial ra enabled fwd byId byViewId))).
  { unfold constructor. apply enableForwardedPortsView_never; try reflexivity.
    left. exact Hr. }
  apply (run_settled 0 es) in H0. destruct H0 as (Hc & Hn).
  assert (H : Shape s) by (apply run_Shape, constructor_Shape).
  destruct H as (Hl & _). fold s in Hc, Hn.
  split; [exact Hn|]. split; [exact Hc|].
  unfold listener_ok in Hl. rewrite Hc in Hl.
  destruct (contextKeyListener s); [discriminate | reflexivity].
Qed.

Lemma X3_witness :
  let s := run [SetViewEnabled true; SetViewEnabled false; SetViewEnabled true]
             (constructor (initial (Some "") true ∅ (Some remoteContainer) None)) in
  panelRegistrations s = 0 /\ contextListeners s = [] /\
  contextKeyListener s = None.
Proof.
  apply (X3_local_window_never_registers (Some "") true ∅
           (Some remoteContainer) None
           [SetViewEnabled true; SetViewEnabled false; SetViewEnabled true]).
  reflexivity.
Defined.

(** X4: when the flag is true at construction and
    [getViewContainerById(VIEWLET_ID)] returns nothing, the panel is not
    registered and no listener is subscribed, so it is never registered
    later either, not even when the container becomes available and the flag
    changes again. *)
Theorem X4_missing_container_at_construction
    ra fwd byViewId (es : list Event) :
  let s := run es (constructor (initial ra true fwd None byViewId)) in
  panelRegistrations s = 0 /\ contextListeners s = [].
Proof.
  intros s.
  assert (H0 : settled 0 (constructor (initial ra true fwd None byViewId))).
  { unfold constructor. apply enableForwardedPortsView_never; try reflexivity.
    right. split; reflexivity. }
  apply (run_settled 0 es) in H0. destruct H0 as (Hc & Hn). split; assumption.
Qed.

(** X5: the listener of lines 78-84 is subscribed exactly as long as the
    panel has not been registered: views registered by others leave it in
    place, and the registration of the tunnel view disposes it. *)
Theorem X5_views_listener_until_registration
    ra enabled fwd byId byViewId (es : list Event) :
  let s := run es (constructor (initial ra enabled fwd byId byViewId)) in
  onViewsRegistered s = true <-> panelRegistrations s = 0.
Proof.
  intros s.
  assert (H : Shape s) by (apply run_Shape, constructor_Shape).
  destruct H as (_ & [(Hn & Hv) | (Hn & Hv & _)]); rewrite Hn, Hv;
    split; congruence.
Qed.



(** X7: once the status bar agrees with the forwarded set (one entry when
    ports are forwarded, none otherwise) it agrees after every later event:
    tunnel changes, flag changes, the registration of the panel, views
    registered by others. *)
Theorem X7_status_bar_stays_in_step
    ra enabled fwd byId byViewId (es1 es2 : list Event) :
  let s1 := run es1 (constructor (initial ra enabled fwd byId byViewId)) in
  statusSynced s1 -> statusSynced (run es2 s1).
Proof.
  intros s1 H.
  assert (Hi : Inv s1) by (apply run_Inv, constructor_Inv).
  revert Hi H. generalize s1. clear s1.
  induction es2 as [|e es IH]; cbn; intros s Hi H; [exact H|].
  apply IH; [now apply step_Inv | now apply step_statusSynced].
Qed.

Lemma X7_witness :
  let s1 := run [PortForwarded "localhost:3000" devServer]
              (constructor (initial (Some "ssh-remote+box") false ∅
                              (Some remoteContainer) None)) in
  statusSynced s1 /\
  statusSynced
    (run [SetViewEnabled true; PortClosed "localhost:3000"; OtherContextChange] s1).
Proof.
  intros s1.
  assert (H : statusSynced s1) by (vm_compute; reflexivity).
  split; [exact H|].
  apply (X7_status_bar_stays_in_step (Some "ssh-remote+box") false ∅
           (Some remoteContainer) None
           [PortForwarded "localhost:3000" devServer]
           [SetViewEnabled true; PortClosed "localhost:3000"; OtherContextChange] H).
Defined.


(** X9: in every state the object can be in, the welcome content, the two
    tunnel-model listeners and the accessor of every status-bar entry that is
    shown have been handed to [_register], so they are released with the
    object. *)
Theorem X9_registered_for_disposal
    ra enabled fwd byId byViewId (es : list Event) :
  let s := run es (constructor (initial ra enabled fwd byId byViewId)) in
  In WelcomeContent (_store s) /\ In ForwardPortListener (_store s) /\
  In ClosePortListener (_store s) /\
  (forall h, In h (statusbarEntries s) -> In (StatusbarEntry h) (_store s)).
Proof.
  intros s. apply (run_display store_ok).
  - apply store_ok_ext.
  - intros x _. apply tunnelModelChanged_store.
  - intros m x _ H. apply tunnelModelChanged_store. exact H.
  - apply constructor_Inv.
  - apply (constructor_display store_ok).
    + apply store_ok_ext.
    + intros x _. apply tunnelModelChanged_store.
    + unfold store_ok. cbn. intuition.
Qed.

(** X10: every badge the object shows counts at least one port, and its
    label is the singular "1 forwarded port" exactly when it counts one. *)
Theorem X10_badge_count_and_label
    ra enabled fwd byId byViewId (es : list Event) (a : Activity) :
  let s := run es (constructor (initial ra enabled fwd byId byViewId)) in
  In a (activities s) ->
  0 < number a /\ (label a = "1 forwarded port" <-> number a = 1).
Proof.
  intros s Ha.
  assert (H : badges_labelled s).
  { apply (run_display badges_labelled).
    - apply badges_labelled_ext.
    - intros x _. apply tunnelModelChanged_labelled.
    - intros m x _ H. apply tunnelModelChanged_labelled. exact H.
    - apply constructor_Inv.
    - apply (constructor_display badges_labelled).
      + apply badges_labelled_ext.
      + intros x _. apply tunnelModelChanged_labelled.
      + intros b []. }
  destruct (H a Ha) as (Hn & Hl). split; [exact Hn|].
  rewrite Hl. apply badgeLabel_singular.
Qed.

Lemma X10_witness :
  let s := run [PortForwarded "localhost:3000" devServer;
                PortForwarded "localhost:3001" devServer]
             (constructor (initial (Some "ssh-remote+box") true ∅
                             (Some remoteContainer) (Some remoteContainer))) in
  let a := mkActivity 2 VIEWLET_ID 2 "2 forwarded ports" in
  In a (activities s) /\ 0 < number a /\
  (label a = "1 forwarded port" <-> number a = 1).
Proof.
  intros s a.
  assert (Ha : In a (activities s)) by (vm_compute; auto).
  split; [exact Ha|].
  apply (X10_badge_count_and_label (Some "ssh-remote+box") true ∅
           (Some remoteContainer) (Some remoteContainer)
           [PortForwarded "localhost:3000" devServer;
            PortForwarded "localhost:3001" devServer] a Ha).
Defined.

End ForwardedPortsViewFacts.

(* ===================================================================== *)
Module AutomaticPortForwardingFacts.
Import AutomaticPortForwarding.

(** *** Starting and stopping the scanner *)

Lemma disposeContextServiceListener_frame s :
  urlFinders (disposeContextServiceListener s) = urlFinders s /\
  matchListeners (disposeContextServiceListener s) = matchListeners s /\
  nextHandle (disposeContextServiceListener s) = nextHandle s /\
  urlFinder (disposeContextServiceListener s) = urlFinder s.
Proof.
  unfold disposeContextServiceListener.
  destruct (contextServiceListener s); repeat split.
Qed.

(** With a scanner already stored in [urlFinder] the guard of line 162 does
    not return: a second scanner and a second match listener are created,
    and the first scanner is neither disposed nor referenced any more. *)
Lemma startUrlFinder_while_active s f :
  urlFinder s = Some f ->
  let s' := startUrlFinder s in
  urlFinders s' = nextHandle s :: urlFinders s /\
  matchListeners s' = (nextHandle s, S (nextHandle s)) :: matchListeners s /\
  urlFinder s' = Some (nextHandle s).
Proof.
  intros Hf. cbv zeta. unfold startUrlFinder. rewrite Hf. cbn [undefined andb].
  destruct (disposeContextServiceListener_frame s) as (E1 & E2 & E3 & _).
  unfold newUrlFinder, onDidMatchLocalUrl. cbn. rewrite E1, E2, E3.
  repeat split.
Qed.

(** Without a scanner the guard holds the start back while the capability
    flag is false, and with the setting off the start path is not taken. *)
Lemma startUrlFinder_guard s :
  urlFinder s = None -> viewEnabled s = false -> startUrlFinder s = s.
Proof. intros Hf Hv. unfold startUrlFinder. now rewrite Hf, Hv. Qed.

Lemma tryStartStopUrlFinder_setting_off s :
  autoForwardPorts s = false -> tryStartStopUrlFinder s = stopUrlFinder s.
Proof. intros H. unfold tryStartStopUrlFinder. now rewrite H. Qed.

(** C2: evaluation at the failing input.  The object is constructed in a
    remote window with the setting on and the capability flag true, so a
    scanner (2) with its match listener (3) is running.  A configuration
    change that leaves the setting on calls [startUrlFinder] again: a second
    scanner (4) and a second match listener (5) are created, the state
    changes, and the first scanner is left running without a reference. *)
Theorem C2_startUrlFinder_while_active_starts_second_scanner :
  let s := constructor (initial (Some "ssh-remote+box") true true ∅) in
  let s' := fireConfigurationChange true s in
  (urlFinder s = Some 2 /\ urlFinders s = [2] /\ matchListeners s = [(2, 3)]) /\
  s' = startUrlFinder s /\
  (urlFinder s' = Some 4 /\ urlFinders s' = [4; 2] /\
   matchListeners s' = [(4, 5); (2, 3)]) /\
  ~ In (Finder 2) (disposed s').
Proof.
  vm_compute. repeat split. intros [H | [H | []]]; discriminate.
Qed.

(** C6: evaluation at the failing input.  A scanner (2) is running; the
    capability flag becomes false, which reaches no listener; a configuration
    change that leaves the setting on then takes the start path, and a new
    scanner (4) is created although the flag is false. *)
Theorem C6_scanner_started_with_flag_false :
  let s0 := constructor (initial (Some "ssh-remote+box") true true ∅) in
  let s := fireContextChange true (set_viewEnabled false s0) in
  let s' := fireConfigurationChange true s in
  (viewEnabled s = false /\ autoForwardPorts s = true /\ urlFinders s = [2]) /\
  s' = startUrlFinder s /\
  (viewEnabled s' = false /\ urlFinders s' = [4; 2] /\ urlFinder s' = Some 4).
Proof. vm_compute. repeat split. Qed.

(** C8: [stopUrlFinder] without a scanner changes nothing and disposes
    nothing; with a scanner it makes one [dispose] call, on that scanner,
    which is then no longer live, and clears [urlFinder]; a second call
    changes nothing more. *)
Theorem C8_stopUrlFinder_idempotent s :
  (urlFinder s = None -> stopUrlFinder s = s) /\
  (forall f, urlFinder s = Some f ->
     let s' := stopUrlFinder s in
     urlFinder s' = None /\
     disposed s' = Finder f :: disposed s /\
     urlFinders s' = drop f (urlFinders s) /\
     s' = set_urlFinder None
            (set_urlFinders (drop f (urlFinders s))
               (set_disposed (Finder f :: disposed s) s))) /\
  stopUrlFinder (stopUrlFinder s) = stopUrlFinder s.
Proof.
  unfold stopUrlFinder. split; [|split].
  - intros ->. reflexivity.
  - intros f ->. cbn. repeat split.
  - destruct (urlFinder s) as [f|] eqn:Ef; cbn; [reflexivity|].
    now rewrite Ef.
Qed.

Section HandlerFacts.

Context {imports : RemoteExplorerImports}.

(** *** The subscriptions of the object *)

Lemma Subscribed_ext s s' : controlPart s' = controlPart s -> Subscribed s -> Subscribed s'.
Proof.
  unfold controlPart, Subscribed. intros E. injection E as -> -> -> -> _. tauto.
Qed.

Lemma stopUrlFinder_Subscribed s : Subscribed s -> Subscribed (stopUrlFinder s).
Proof.
  intros H. unfold stopUrlFinder.
  destruct (urlFinder s) as [f|] eqn:Ef; [|exact H].
  destruct H as (Hc & Hl). split; [exact Hc|]. cbn.
  destruct Hl as [Hl | (l & _ & _ & Hn)]; [now left | congruence].
Qed.

Lemma startUrlFinder_Subscribed s : Subscribed s -> Subscribed (startUrlFinder s).
Proof.
  intros H. unfold startUrlFinder.
  destruct (undefined (urlFinder s) && negb (viewEnabled s)); [exact H|].
  destruct H as (Hc & Hl). split.
  - unfold disposeContextServiceListener.
    destruct (contextServiceListener s); exact Hc.
  - left. unfold disposeContextServiceListener.
    destruct Hl as [Hl | (l & Hl & Hk & _)].
    + destruct (contextServiceListener s); cbn; rewrite Hl; reflexivity.
    + rewrite Hk. cbn. rewrite Hl. apply drop_single.
Qed.

Lemma tryStartStopUrlFinder_Subscribed s : Subscribed s -> Subscribed (tryStartStopUrlFinder s).
Proof.
  intros H. unfold tryStartStopUrlFinder. destruct (autoForwardPorts s).
  - now apply startUrlFinder_Subscribed.
  - now apply stopUrlFinder_Subscribed.
Qed.

Lemma localUrlListener_control u s :
  controlPart (localUrlListener u s) = controlPart s.
Proof.
  unfold localUrlListener.
  destruct (mapHasTunnelLocalhostOrAllInterfaces _ _ _); reflexivity.
Qed.

Lemma forwardSettled_control r s : controlPart (forwardSettled r s) = controlPart s.
Proof. destruct r; reflexivity. Qed.

Lemma changeListener_Subscribed affects s :
  Subscribed s -> Subscribed (changeListener affects s).
Proof.
  intros H. unfold changeListener. destruct affects; [|assumption].
  now apply tryStartStopUrlFinder_Subscribed.
Qed.

Lemma fireMatchLocalUrl_control f u s :
  controlPart (fireMatchLocalUrl f u s) = controlPart s.
Proof.
  unfold fireMatchLocalUrl.
  destruct (existsb (Nat.eqb f) (urlFinders s)); [|reflexivity].
  generalize (List.filter (fun p : nat * nat => Nat.eqb (fst p) f)
                (matchListeners s)).
  intros l. revert s. induction l as [|x l IH]; cbn; intros s; [reflexivity|].
  rewrite IH. apply localUrlListener_control.
Qed.

Lemma step_Subscribed e s : Subscribed s -> Subscribed (step e s).
Proof.
  intros H. destruct e as [b| |b| |fwd|f u|i r]; cbn [step].
  - unfold fireConfigurationChange. apply fold_listeners_preserves.
    + apply changeListener_Subscribed.
    + revert H. apply Subscribed_ext. reflexivity.
  - unfold fireConfigurationChange.
    apply fold_listeners_preserves; [apply changeListener_Subscribed | exact H].
  - unfold fireContextChange. apply fold_listeners_preserves.
    + apply changeListener_Subscribed.
    + revert H. apply Subscribed_ext. reflexivity.
  - unfold fireContextChange.
    apply fold_listeners_preserves; [apply changeListener_Subscribed | exact H].
  - revert H. apply Subscribed_ext. reflexivity.
  - revert H. apply Subscribed_ext, fireMatchLocalUrl_control.
  - destruct (awaiting s !! i); [|assumption].
    revert H. apply Subscribed_ext. now rewrite forwardSettled_control.
Qed.

Lemma run_Subscribed es s : Subscribed s -> Subscribed (run es s).
Proof.
  revert s. induction es as [|e es IH]; cbn; intros s H; [assumption|].
  apply IH. now apply step_Subscribed.
Qed.

Lemma constructor_Subscribed ra setting enabled fwd :
  Subscribed (constructor (initial ra setting enabled fwd)).
Proof.
  unfold constructor. cbn.
  destruct (truthy ra).
  - apply tryStartStopUrlFinder_Subscribed. split; [reflexivity|].
    right. eexists. repeat split.
  - split; [reflexivity|]. left. reflexivity.
Qed.

(** *** One listener per scanner *)

Lemma Paired_ext s s' : scanPart s' = scanPart s -> Paired s -> Paired s'.
Proof.
  unfold scanPart, Paired, listenersOf. intros E. injection E as -> -> ->. tauto.
Qed.

Lemma drop_In x h l : In x (drop h l) -> In x l.
Proof. unfold drop. intros H. now apply List.filter_In in H. Qed.

Lemma stopUrlFinder_Paired s : Paired s -> Paired (stopUrlFinder s).
Proof.
  intros H. unfold stopUrlFinder. destruct (urlFinder s) as [f|]; [|exact H].
  destruct H as (H1 & H2 & H3). unfold Paired, listenersOf in *. cbn.
  split; [|split]; [| exact H2 |]; intros x Hx; apply drop_In in Hx; auto.
Qed.

Lemma disposeContextServiceListener_scan s :
  scanPart (disposeContextServiceListener s) = scanPart s.
Proof.
  unfold disposeContextServiceListener.
  destruct (contextServiceListener s); reflexivity.
Qed.

Lemma startUrlFinder_Paired s : Paired s -> Paired (startUrlFinder s).
Proof.
  intros H. unfold startUrlFinder.
  destruct (undefined (urlFinder s) && negb (viewEnabled s)); [exact H|].
  cbv zeta.
  apply (Paired_ext _ _ (disposeContextServiceListener_scan s)) in H.
  revert H. generalize (disposeContextServiceListener s). intros s1 (H1 & H2 & H3).
  unfold Paired, listenersOf, newUrlFinder, onDidMatchLocalUrl in *. cbn.
  assert (Hnone : List.filter (fun p : nat * nat => Nat.eqb (fst p) (nextHandle s1))
                    (matchListeners s1) = []).
  { apply filter_none. intros p Hp. apply H2 in Hp. apply Nat.eqb_neq. lia. }
  split; [|split].
  - intros f [<- | Hf]; [lia | apply H1 in Hf; lia].
  - intros p [<- | Hp]; [cbn; lia | apply H2 in Hp; lia].
  - intros f [<- | Hf].
    + rewrite Nat.eqb_refl. cbn. now rewrite Hnone.
    + assert (Hne : Nat.eqb (nextHandle s1) f = false)
        by (apply Nat.eqb_neq; apply H1 in Hf; lia).
      rewrite Hne. now apply H3.
Qed.

Lemma tryStartStopUrlFinder_Paired s : Paired s -> Paired (tryStartStopUrlFinder s).
Proof.
  intros H. unfold tryStartStopUrlFinder. destruct (autoForwardPorts s).
  - now apply startUrlFinder_Paired.
  - now apply stopUrlFinder_Paired.
Qed.

Lemma changeListener_Paired affects s : Paired s -> Paired (changeListener affects s).
Proof.
  intros H. unfold changeListener. destruct affects; [|exact H].
  now apply tryStartStopUrlFinder_Paired.
Qed.

Lemma localUrlListener_scan u s : scanPart (localUrlListener u s) = scanPart s.
Proof.
  unfold localUrlListener.
  destruct (mapHasTunnelLocalhostOrAllInterfaces _ _ _); reflexivity.
Qed.

Lemma fireMatchLocalUrl_scan f u s : scanPart (fireMatchLocalUrl f u s) = scanPart s.
Proof.
  unfold fireMatchLocalUrl.
  destruct (existsb (Nat.eqb f) (urlFinders s)); [|reflexivity].
  generalize (List.filter (fun p : nat * nat => Nat.eqb (fst p) f)
                (matchListeners s)).
  intros l. revert s. induction l as [|x l IH]; cbn; intros s; [reflexivity|].
  rewrite IH. apply localUrlListener_scan.
Qed.

Lemma step_Paired e s : Paired s -> Paired (step e s).
Proof.
  intros H. destruct e as [b| |b| |fwd|f u|i r]; cbn [step].
  - unfold fireConfigurationChange. apply fold_listeners_preserves.
    + apply changeListener_Paired.
    + revert H. apply Paired_ext. reflexivity.
  - unfold fireConfigurationChange.
    apply fold_listeners_preserves; [apply changeListener_Paired | exact H].
  - unfold fireContextChange. apply fold_listeners_preserves.
    + apply changeListener_Paired.
    + revert H. apply Paired_ext. reflexivity.
  - unfold fireContextChange.
    apply fold_listeners_preserves; [apply changeListener_Paired | exact H].
  - revert H. apply Paired_ext. reflexivity.
  - revert H. apply Paired_ext, fireMatchLocalUrl_scan.
  - destruct (awaiting s !! i); [|assumption].
    revert H. apply Paired_ext. destruct r; reflexivity.
Qed.

Lemma run_Paired es s : Paired s -> Paired (run es s).
Proof.
  revert s. induction es as [|e es IH]; cbn; intros s H; [assumption|].
  apply IH. now apply step_Paired.
Qed.

Lemma empty_Paired s : urlFinders s = [] -> matchListeners s = [] -> Paired s.
Proof.
  intros Hf Hm. unfold Paired, listenersOf. rewrite Hf, Hm.
  repeat split; intros x [].
Qed.

Lemma constructor_Paired ra setting enabled fwd :
  Paired (constructor (initial ra setting enabled fwd)).
Proof.
  unfold constructor. cbv zeta.
  match goal with |- Paired (if ?b then _ else _) => destruct b end.
  - apply tryStartStopUrlFinder_Paired. apply empty_Paired; reflexivity.
  - apply empty_Paired; reflexivity.
Qed.

(** A live scanner that finds a URL runs the listener once. *)
Lemma fireMatchLocalUrl_once f u s :
  Paired s -> In f (urlFinders s) ->
  fireMatchLocalUrl f u s = localUrlListener u s.
Proof.
  intros (_ & _ & H3) Hf. unfold fireMatchLocalUrl.
  assert (He : existsb (Nat.eqb f) (urlFinders s) = true).
  { apply List.existsb_exists. exists f. split; [exact Hf | apply Nat.eqb_refl]. }
  rewrite He. specialize (H3 f Hf). unfold listenersOf in H3.
  destruct (List.filter _ (matchListeners s)) as [|p [|q l]]; try discriminate.
  reflexivity.
Qed.

(** *** Properties of the match listener *)

(** The listener calls [forward] exactly when the URL is not covered by
    the forwarded map, and leaves the state alone when it is. *)
Lemma localUrlListener_forward_iff (u : LocalUrl) s :
  let s' := localUrlListener u s in
  let covered :=
    mapHasTunnelLocalhostOrAllInterfaces (forwarded s) (host u) (port u) in
  (forwardRequests s' = u :: forwardRequests s <-> covered = false) /\
  (forwardRequests s' = forwardRequests s <-> covered = true) /\
  (covered = true -> s' = s).
Proof.
  cbv zeta. unfold localUrlListener.
  destruct (mapHasTunnelLocalhostOrAllInterfaces _ _ _); cbn.
  - split; [|split]; [split|split|]; auto.
    + intros E. symmetry in E. now apply cons_neq in E.
    + discriminate.
  - split; [|split]; [split|split|]; auto.
    + intros E. now apply cons_neq in E.
    + discriminate.
    + discriminate.
Qed.

(** C1: in every state the object can be in, when a live scanner reports a
    local URL, [remoteExplorerService.forward] is called for it exactly when
    [mapHasTunnelLocalhostOrAllInterfaces] returns false for the forwarded
    map and the URL's host and port; when it returns true no request is made
    and the state is left as it was. *)
Theorem C1_forward_iff_not_already_forwarded
    ra setting enabled fwd (es : list Event) (f : nat) (u : LocalUrl) :
  let s := run es (constructor (initial ra setting enabled fwd)) in
  let covered :=
    mapHasTunnelLocalhostOrAllInterfaces (forwarded s) (host u) (port u) in
  In f (urlFinders s) ->
  let s' := step (LocalUrlMatched f u) s in
  (forwardRequests s' = u :: forwardRequests s <-> covered = false) /\
  (forwardRequests s' = forwardRequests s <-> covered = true) /\
  (covered = true -> s' = s).
Proof.
  intros s covered Hf s'.
  assert (H : Paired s) by (apply run_Paired, constructor_Paired).
  assert (E : s' = localUrlListener u s)
    by (unfold s'; cbn [step]; now apply fireMatchLocalUrl_once).
  rewrite E. apply localUrlListener_forward_iff.
Qed.

(** C7: when the forward request of a detected URL resolves to no tunnel,
    no prompt is shown and nothing else happens: no further request, no
    change to the scanner or the listeners.  A prompt appears only when the
    request resolved to a tunnel, and then it is the informational prompt for
    that tunnel. *)
Theorem C7_no_prompt_without_tunnel (i : nat) (result : option Tunnel) s :
  let s' := step (ForwardSettled i result) s in
  (result = None ->
   prompts s' = prompts s /\ forwardRequests s' = forwardRequests s /\
   controlPart s' = controlPart s /\ scanPart s' = scanPart s) /\
  (prompts s' <> prompts s -> is_Some result) /\
  (forall t, result = Some t -> is_Some (awaiting s !! i) ->
             prompts s' = promptFor t :: prompts s /\
             severity (promptFor t) = Info).
Proof.
  cbv zeta. cbn [step]. split; [|split].
  - intros ->. destruct (awaiting s !! i); repeat split.
  - intros H. destruct result as [t|]; [eauto|].
    exfalso. apply H. destruct (awaiting s !! i); reflexivity.
  - intros t -> (u & ->). split; reflexivity.
Qed.

Lemma fold_idle (l : list nat) (s : State) :
  fold_left (fun s' _ => changeListener false s') l s = s.
Proof. revert s. induction l as [|x l IH]; cbn; auto. Qed.

Lemma fireConfigurationChange_single affects s l :
  configurationListeners s = [l] ->
  fireConfigurationChange affects s = changeListener affects s.
Proof. unfold fireConfigurationChange. intros ->. reflexivity. Qed.

(** While a scanner is running, every event but turning the setting off
    leaves a scanner in [urlFinder]. *)
Lemma step_stays_active e s f :
  Subscribed s -> urlFinder s = Some f -> e <> SetAutoForwardPorts false ->
  is_Some (urlFinder (step e s)).
Proof.
  intros (Hc & Hl) Hf He.
  assert (Hl' : contextListeners s = [])
    by (destruct Hl as [Hl | (l & _ & _ & Hn)]; [assumption | congruence]).
  assert (Hkeep : forall s', controlPart s' = controlPart s ->
                             is_Some (urlFinder s')).
  { intros s' E. unfold controlPart in E. injection E as _ _ _ -> _. eauto. }
  destruct e as [[|]| |b| |fwd|g u|i r]; try congruence; cbn [step].
  - destruct (configurationListeners s) as [|x [|y l]] eqn:El; try discriminate.
    rewrite (fireConfigurationChange_single true (set_autoForwardPorts true s) x El).
    unfold changeListener, tryStartStopUrlFinder.
    cbn [autoForwardPorts set_autoForwardPorts].
    destruct (startUrlFinder_while_active (set_autoForwardPorts true s) f Hf)
      as (_ & _ & E).
    rewrite E. eauto.
  - unfold fireConfigurationChange. rewrite fold_idle. eauto.
  - unfold fireContextChange. cbn [contextListeners set_viewEnabled].
    rewrite Hl'. cbn. eauto.
  - unfold fireContextChange. rewrite fold_idle. eauto.
  - cbn. eauto.
  - apply Hkeep, fireMatchLocalUrl_control.
  - destruct (awaiting s !! i); [|eauto].
    apply Hkeep. now rewrite forwardSettled_control.
Qed.

(** C3 (amended): while a scanner is running, a change of the capability
    flag, to false or to true, reaches no listener of the object: the
    listener was disposed when the scanner was started.  Only the value of
    the flag changes; the scanner keeps running and no listener is attached.
    A scanner stays in place under every event except the setting being
    turned off; that event stops the scanner, and the listener is not
    attached again then either. *)
Theorem C3_flag_change_while_active
    ra setting enabled fwd (es : list Event) (f : nat) (b : bool) :
  let s := run es (constructor (initial ra setting enabled fwd)) in
  urlFinder s = Some f ->
  step (SetViewEnabled b) s = set_viewEnabled b s /\
  (forall e, e <> SetAutoForwardPorts false -> is_Some (urlFinder (step e s))) /\
  (let s' := step (SetAutoForwardPorts false) s in
   urlFinder s' = None /\ ~ In f (urlFinders s') /\ contextListeners s' = []).
Proof.
  intros s Hf.
  assert (H : Subscribed s) by (apply run_Subscribed, constructor_Subscribed).
  pose proof H as (Hc & Hl).
  assert (Hl' : contextListeners s = [])
    by (destruct Hl as [Hl | (l & _ & _ & Hn)]; [assumption | congruence]).
  split; [|split].
  - cbn [step]. unfold fireContextChange.
    cbn [contextListeners set_viewEnabled]. rewrite Hl'. reflexivity.
  - intros e He. now apply (step_stays_active e s f).
  - cbv zeta. cbn [step].
    destruct (configurationListeners s) as [|x [|y l]] eqn:El; try discriminate.
    rewrite (fireConfigurationChange_single true (set_autoForwardPorts false s) x El).
    unfold changeListener, tryStartStopUrlFinder.
    cbn [autoForwardPorts set_autoForwardPorts]. unfold stopUrlFinder.
    cbn [urlFinder set_autoForwardPorts]. rewrite Hf. cbn.
    split; [reflexivity|]. split; [apply drop_not_in | exact Hl'].
Qed.

End HandlerFacts.

(** *** Scenarios *)

(** The first scenario of the spec: nothing is forwarded, the scanner
    reports 127.0.0.1:3000, the forward is requested, and when it resolves the
    prompt is shown. *)
Example detect_forward_prompt :
  let s := run (imports := specImports)
             [LocalUrlMatched 2 (mkLocalUrl "127.0.0.1" 3000);
              ForwardSettled 0 (Some (mkTunnel "127.0.0.1" 3000 "localhost:3000"))]
             (constructor (initial (Some "ssh-remote+box") true true ∅)) in
  forwardRequests s = [mkLocalUrl "127.0.0.1" 3000] /\
  map message (prompts s) =
    ["127.0.0.1:3000 from the remote has been forwarded to localhost:3000 locally."].
Proof. vm_compute. split; reflexivity. Qed.

(** Turning the setting off and on twice: one scanner per enable, each
    disposed by the disable that follows. *)
Example enable_disable_twice :
  let s := run (imports := specImports)
             [SetAutoForwardPorts false; SetAutoForwardPorts true;
              SetAutoForwardPorts false]
             (constructor (initial (Some "ssh-remote+box") true true ∅)) in
  urlFinder s = None /\ urlFinders s = [] /\
  disposed s = [Finder 4; ContextListener 1; Finder 2; ContextListener 1].
Proof. vm_compute. repeat split. Qed.

(** What the second scanner of a repeated start costs: both scanners read
    the same terminals, both report the URL, and [forward] is called twice
    before either call has resolved. *)
Example second_scanner_duplicates_requests :
  let u := mkLocalUrl "localhost" 3000 in
  let s := run (imports := specImports)
             [SetAutoForwardPorts true; LocalUrlMatched 2 u; LocalUrlMatched 4 u]
             (constructor (initial (Some "ssh-remote+box") true true ∅)) in
  urlFinders s = [4; 2] /\ forwardRequests s = [u; u].
Proof. vm_compute. split; reflexivity. Qed.

(** C3 at a concrete state: the scanner started by the constructor is
    running and the capability flag is set to false. *)
Lemma C3_witness :
  let s := run (imports := specImports)
             [OtherContextChange]
             (constructor (initial (Some "ssh-remote+box") true true ∅)) in
  urlFinder s = Some 2 /\
  step (imports := specImports) (SetViewEnabled false) s = set_viewEnabled false s.
Proof.
  intros s.
  assert (Hf : urlFinder s = Some 2) by reflexivity.
  split; [exact Hf|].
  apply (C3_flag_change_while_active (imports := specImports)
           (Some "ssh-remote+box") true true ∅ [OtherContextChange] 2 false Hf).
Defined.

(** C1 at a concrete state: the scanner started by the constructor reports
    127.0.0.1:3000 while nothing is forwarded. *)
Lemma C1_witness :
  let u := mkLocalUrl "127.0.0.1" 3000 in
  let s := run (imports := specImports) []
             (constructor (initial (Some "ssh-remote+box") true true ∅)) in
  let s' := step (imports := specImports) (LocalUrlMatched 2 u) s in
  In 2 (urlFinders s) /\ forwardRequests s' = u :: forwardRequests s.
Proof.
  intros u s s'.
  assert (Hf : In 2 (urlFinders s)) by (vm_compute; auto).
  split; [exact Hf|].
  destruct (C1_forward_iff_not_already_forwarded (imports := specImports)
              (Some "ssh-remote+box") true true ∅ [] 2 u Hf) as ((_ & H) & _).
  apply H. vm_compute. reflexivity.
Defined.

(** C3 as stated fails: a scanner (2) is running, the capability flag
    becomes false, and the scanner is still stored in [urlFinder] and still
    live; nothing was disposed and no context listener is attached. *)
Lemma C3_counterexample :
  let s := constructor (initial (Some "ssh-remote+box") true true ∅) in
  let s' := fireContextChange true (set_viewEnabled false s) in
  urlFinder s = Some 2 /\ urlFinder s' = Some 2 /\ urlFinders s' = [2] /\
  disposed s' = disposed s /\ contextListeners s' = [].
Proof. vm_compute. repeat split. Qed.

(** ** Further properties of [AutomaticPortForwarding] *)

(** *** The "Show Forwarded Ports" choice *)

Lemma beforePlus_prefix a :
  exists rest, a = beforePlus a ++ rest /\
               (rest = "" \/ exists r, rest = String "+" r).
Proof.
  induction a as [|c a (rest & E & Hrest)]; cbn.
  - exists "". auto.
  - destruct (Ascii.eqb_spec c "+") as [-> | Hne].
    + exists (String "+" a). cbn. eauto.
    + exists rest. split; [|exact Hrest].
      change (String c a = String c (beforePlus a ++ rest)). now f_equal.
Qed.

Lemma beforePlus_no_plus a : ~ In "+"%char (String.list_ascii_of_string (beforePlus a)).
Proof.
  induction a as [|c a IH]; cbn; [tauto|].
  destruct (Ascii.eqb_spec c "+") as [-> | Hne]; cbn; [tauto|].
  intros [E | H]; [congruence | contradiction].
Qed.

Lemma beforePlus_whole a :
  ~ In "+"%char (String.list_ascii_of_string a) -> beforePlus a = a.
Proof.
  induction a as [|c a IH]; cbn; [reflexivity|]. intros H.
  destruct (Ascii.eqb_spec c "+") as [-> | Hne]; [tauto|].
  f_equal. apply IH. tauto.
Qed.

(** X18: the "Show Forwarded Ports" choice always opens the remote view
    container.  Without a remote authority it leaves [targetType] alone;
    with one it sets [targetType] to the single name in front of the first
    [+] of the authority: a name without [+], a prefix of the authority, and
    the whole authority when that has no [+]. *)
Theorem X18_show_choice (ra : option string) (x : Explorer) :
  let x' := showChoice_run ra x in
  openedViewContainers x' = VIEWLET_ID :: openedViewContainers x /\
  (truthy ra = false -> targetType x' = targetType x) /\
  (forall a, ra = Some a -> a <> "" ->
     targetType x' = [beforePlus a] /\
     ~ In "+"%char (String.list_ascii_of_string (beforePlus a)) /\
     (exists rest, a = beforePlus a ++ rest /\
                   (rest = "" \/ exists r, rest = String "+" r)) /\
     (~ In "+"%char (String.list_ascii_of_string a) -> targetType x' = [a])).
Proof.
  cbv zeta. unfold showChoice_run. split; [|split].
  - destruct ra as [a|]; [destruct (truthy (Some a))|]; reflexivity.
  - intros H. destruct ra as [a|]; [rewrite H|]; reflexivity.
  - intros a -> Ha.
    assert (Ht : truthy (Some a) = true).
    { cbn. destruct (String.eqb_spec a ""); [contradiction | reflexivity]. }
    rewrite Ht. cbn. split; [reflexivity|]. split; [apply beforePlus_no_plus|].
    split; [apply beforePlus_prefix|]. intros H. now rewrite beforePlus_whole.
Qed.

Section Coverage.

Context {imports : RemoteExplorerImports}.

(** *** What the listeners leave alone *)

(** The match listener writes the two request fields and nothing else. *)
Lemma localUrlListener_writes u s :
  exists r a, localUrlListener u s = set_awaiting a (set_forwardRequests r s).
Proof.
  unfold localUrlListener.
  destruct (mapHasTunnelLocalhostOrAllInterfaces _ _ _).
  - exists (forwardRequests s), (awaiting s). now destruct s.
  - eauto.
Qed.

Lemma fireMatchLocalUrl_writes f u s :
  exists r a, fireMatchLocalUrl f u s = set_awaiting a (set_forwardRequests r s).
Proof.
  unfold fireMatchLocalUrl.
  destruct (existsb (Nat.eqb f) (urlFinders s)).
  - generalize (List.filter (fun p : nat * nat => Nat.eqb (fst p) f)
                  (matchListeners s)).
    intros l.
    assert (H : forall x, (exists r a, x = set_awaiting a (set_forwardRequests r s)) ->
                exists r a, fold_left (fun s' _ => localUrlListener u s') l x =
                            set_awaiting a (set_forwardRequests r s)).
    { induction l as [|p l IH]; cbn; [auto|]. intros x (r & a & ->).
      apply IH. destruct (localUrlListener_writes u
                            (set_awaiting a (set_forwardRequests r s)))
        as (r' & a' & ->). eauto. }
    apply H. exists (forwardRequests s), (awaiting s). now destruct s.
  - exists (forwardRequests s), (awaiting s). now destruct s.
Qed.

(** A settled call of [forward] writes the pending calls and the prompts. *)
Lemma forwardSettled_writes i r s :
  exists a p, step (ForwardSettled i r) s = set_prompts p (set_awaiting a s).
Proof.
  cbn [step]. destruct (awaiting s !! i).
  - destruct r as [t|]; cbn [forwardSettled]; [eauto|].
    exists (delete i (awaiting s)), (prompts s). reflexivity.
  - exists (awaiting s), (prompts s). now destruct s.
Qed.

Lemma fold_idle_eq (P : State -> Prop) (l : list nat) (s : State) :
  P s -> P (fold_left (fun s' _ => changeListener false s') l s).
Proof. now rewrite fold_idle. Qed.

Lemma fold_matches_preserves (P : State -> Prop) (f : State -> State)
    (l : list (nat * nat)) (s : State) :
  (forall x, P x -> P (f x)) -> P s -> P (fold_left (fun s' _ => f s') l s).
Proof.
  intros Hf. revert s. induction l as [|x l IH]; cbn; auto.
Qed.

Section StepInvariant.

Variable P : State -> Prop.
Hypothesis P_setting : forall b s, P s -> P (set_autoForwardPorts b s).
Hypothesis P_flag : forall b s, P s -> P (set_viewEnabled b s).
Hypothesis P_tunnels : forall m s, P s -> P (set_forwarded m s).
Hypothesis P_toggle : forall s, P s -> P (tryStartStopUrlFinder s).
Hypothesis P_listener : forall u s, P s -> P (localUrlListener u s).
Hypothesis P_settled :
  forall i r s, is_Some (awaiting s !! i) -> P s ->
                P (forwardSettled r (set_awaiting (delete i (awaiting s)) s)).

Lemma changeListener_invariant affects s : P s -> P (changeListener affects s).
Proof. intros H. unfold changeListener. destruct affects; auto. Qed.

Lemma step_invariant e s : P s -> P (step e s).
Proof.
  intros H. destruct e as [b| |b| |fwd|f u|i r]; cbn [step].
  - unfold fireConfigurationChange.
    apply fold_listeners_preserves; [apply changeListener_invariant | auto].
  - unfold fireConfigurationChange.
    apply fold_listeners_preserves; [apply changeListener_invariant | auto].
  - unfold fireContextChange.
    apply fold_listeners_preserves; [apply changeListener_invariant | auto].
  - unfold fireContextChange.
    apply fold_listeners_preserves; [apply changeListener_invariant | auto].
  - auto.
  - unfold fireMatchLocalUrl. destruct (existsb _ _); [|exact H].
    apply fold_matches_preserves; auto.
  - destruct (awaiting s !! i) eqn:E; [|exact H]. apply P_settled; eauto.
Qed.

End StepInvariant.

Lemma run_invariant (P : State -> Prop) es s :
  (forall e x, P x -> P (step e x)) -> P s -> P (run es s).
Proof.
  intros Hs. revert s. induction es as [|e es IH]; cbn; intros s H; [exact H|].
  apply IH, Hs, H.
Qed.

Lemma disposeContextServiceListener_store s :
  _store (disposeContextServiceListener s) = _store s /\
  urlFinder (disposeContextServiceListener s) = urlFinder s /\
  autoForwardPorts (disposeContextServiceListener s) = autoForwardPorts s /\
  urlFinders (disposeContextServiceListener s) = urlFinders s /\
  matchListeners (disposeContextServiceListener s) = matchListeners s /\
  configurationListeners (disposeContextServiceListener s) =
    configurationListeners s /\
  (forall l, In l (contextListeners (disposeContextServiceListener s)) ->
             In l (contextListeners s)).
Proof.
  unfold disposeContextServiceListener.
  destruct (contextServiceListener s); cbn; repeat split; auto.
  intros l. apply drop_In.
Qed.

(** *** The stored scanner *)

Lemma tryStartStopUrlFinder_Stored s :
  (forall f, urlFinder s = Some f -> In f (urlFinders s)) ->
  Stored (tryStartStopUrlFinder s).
Proof.
  intros H. unfold tryStartStopUrlFinder.
  destruct (autoForwardPorts s) eqn:Ea.
  - unfold startUrlFinder.
    destruct (undefined (urlFinder s) && negb (viewEnabled s)).
    + split; [exact H | intros _; exact Ea].
    + cbv zeta. destruct (disposeContextServiceListener_store s) as (_ & _ & E & _).
      split; cbn.
      * intros f [= <-]. now left.
      * intros _. rewrite E. exact Ea.
  - unfold stopUrlFinder. destruct (urlFinder s) as [f|] eqn:Ef.
    + split; cbn; [discriminate | intros [x [=]]].
    + split; rewrite Ef; [discriminate | intros [x [=]]].
Qed.

Lemma Stored_ext s s' :
  urlFinder s' = urlFinder s -> urlFinders s' = urlFinders s ->
  autoForwardPorts s' = autoForwardPorts s -> Stored s -> Stored s'.
Proof. unfold Stored. intros -> -> ->. tauto. Qed.

Lemma changeListener_Stored affects s : Stored s -> Stored (changeListener affects s).
Proof.
  intros H. unfold changeListener. destruct affects; [|exact H].
  apply tryStartStopUrlFinder_Stored, H.
Qed.

Lemma step_Stored e s : Subscribed s -> Stored s -> Stored (step e s).
Proof.
  intros (Hc & _) H. destruct e as [b| |b| |fwd|f u|i r].
  - cbn [step].
    destruct (configurationListeners s) as [|x [|y l]] eqn:El; try discriminate.
    rewrite (fireConfigurationChange_single true (set_autoForwardPorts b s) x El).
    apply tryStartStopUrlFinder_Stored, H.
  - cbn [step]. unfold fireConfigurationChange. apply fold_idle_eq, H.
  - cbn [step]. unfold fireContextChange.
    apply fold_listeners_preserves; [apply changeListener_Stored|].
    revert H. now apply Stored_ext.
  - cbn [step]. unfold fireContextChange. apply fold_idle_eq, H.
  - cbn [step]. revert H. now apply Stored_ext.
  - cbn [step]. destruct (fireMatchLocalUrl_writes f u s) as (r & a & ->).
    revert H. now apply Stored_ext.
  - destruct (forwardSettled_writes i r s) as (a & p & ->).
    revert H. now apply Stored_ext.
Qed.

Lemma run_Stored es s : Subscribed s -> Stored s -> Stored (run es s).
Proof.
  revert s. induction es as [|e es IH]; cbn; intros s Hs H; [assumption|].
  apply IH; [now apply step_Subscribed | now apply step_Stored].
Qed.

Lemma constructor_Stored ra setting enabled fwd :
  Stored (constructor (initial ra setting enabled fwd)).
Proof.
  unfold constructor. cbv zeta.
  match goal with |- Stored (if ?b then _ else _) => destruct b end.
  - apply tryStartStopUrlFinder_Stored. discriminate.
  - split; [discriminate | intros [x [=]]].
Qed.

(** X11: in every state the object reaches, the scanner kept in [urlFinder]
    is a live one, and while the setting [remote.autoForwardPorts] is off
    [urlFinder] is undefined. *)
Theorem X11_stored_scanner_is_live
    ra setting enabled fwd (es : list Event) :
  let s := run es (constructor (initial ra setting enabled fwd)) in
  (forall f, urlFinder s = Some f -> In f (urlFinders s)) /\
  (autoForwardPorts s = false -> urlFinder s = None).
Proof.
  intros s.
  assert (H : Stored s).
  { apply run_Stored; [apply constructor_Subscribed | apply constructor_Stored]. }
  destruct H as (H1 & H2). split; [exact H1|].
  intros E. destruct (urlFinder s) as [f|]; [|reflexivity].
  rewrite H2 in E; [discriminate | eauto].
Qed.


(** *** While the panel is disabled *)

Lemma tryStartStopUrlFinder_Quiet s : Quiet s -> tryStartStopUrlFinder s = s.
Proof.
  intros (Hv & Hf & _). unfold tryStartStopUrlFinder, startUrlFinder, stopUrlFinder.
  rewrite Hf, Hv. now destruct (autoForwardPorts s).
Qed.

Lemma changeListener_Quiet affects s : Quiet s -> Quiet (changeListener affects s).
Proof.
  intros H. unfold changeListener. destruct affects; [|exact H].
  now rewrite tryStartStopUrlFinder_Quiet.
Qed.

Lemma step_Quiet e s : e <> SetViewEnabled true -> Quiet s -> Quiet (step e s).
Proof.
  intros He H. destruct e as [b| |[|]| |fwd|f u|i r]; try congruence; cbn [step].
  - unfold fireConfigurationChange.
    apply fold_listeners_preserves; [apply changeListener_Quiet | exact H].
  - unfold fireConfigurationChange. apply fold_idle_eq, H.
  - unfold fireContextChange.
    apply fold_listeners_preserves; [apply changeListener_Quiet|].
    destruct H as (_ & H). split; [reflexivity | exact H].
  - unfold fireContextChange. apply fold_idle_eq, H.
  - exact H.
  - unfold fireMatchLocalUrl. destruct H as (Hv & Hf & Hl & H).
    rewrite Hl. cbn. repeat split; tauto.
  - destruct H as (Hv & Hf & Hl & Hm & Hr & Ha & Hp). rewrite Ha. cbn.
    repeat split; assumption.
Qed.

Lemma constructor_Quiet ra setting fwd :
  Quiet (constructor (initial ra setting false fwd)).
Proof.
  unfold constructor. cbv zeta.
  match goal with |- Quiet (if ?b then _ else _) => destruct b end.
  - rewrite tryStartStopUrlFinder_Quiet; repeat split.
  - repeat split.
Qed.

(** X12: when the context key [forwardedPortsViewEnabled] is false at
    construction and is never set to true, no scanner is created, no forward is
    requested and no prompt is shown, whatever the setting is and whatever
    else happens. *)
Theorem X12_nothing_starts_while_view_disabled
    ra setting fwd (es : list Event) :
  ~ In (SetViewEnabled true) es ->
  let s := run es (constructor (initial ra setting false fwd)) in
  urlFinder s = None /\ urlFinders s = [] /\ matchListeners s = [] /\
  forwardRequests s = [] /\ prompts s = [].
Proof.
  intros Hes s.
  assert (H : Quiet s).
  { subst s. generalize (constructor_Quiet ra setting fwd).
    generalize (constructor (initial ra setting false fwd)). intros s.
    revert s. induction es as [|e es IH]; cbn; intros s H; [exact H|].
    apply IH.
    - intros Hin. apply Hes. now right.
    - apply step_Quiet; [|exact H]. intros ->. apply Hes. now left. }
  unfold Quiet in H. tauto.
Qed.

(** *** A local window *)

Lemma tryStartStopUrlFinder_Deaf s : Deaf s -> Deaf (tryStartStopUrlFinder s).
Proof.
  intros (Hl & Hk).
  unfold tryStartStopUrlFinder, startUrlFinder, stopUrlFinder,
    disposeContextServiceListener.
  rewrite Hk. repeat case_match; split; cbn; assumption.
Qed.

Lemma step_Deaf e s : Deaf s -> Deaf (step e s).
Proof.
  apply step_invariant; clear e s.
  - intros b s H. exact H.
  - intros b s H. exact H.
  - intros m s H. exact H.
  - apply tryStartStopUrlFinder_Deaf.
  - intros u s H. destruct (localUrlListener_writes u s) as (r & a & ->). exact H.
  - intros i r s _ H. destruct r; exact H.
Qed.

(** X13: in a window without a remote authority the constructor subscribes
    to the configuration only: it starts no scanner, the object never listens
    to context-key changes, so a change of [forwardedPortsViewEnabled] does
    nothing to it.  The configuration listener is not guarded by the remote
    authority: when the setting is written to true while the key is true, a
    scanner is started. *)
Theorem X13_local_window
    ra setting enabled fwd (es : list Event) (b : bool) :
  truthy ra = false ->
  let s0 := constructor (initial ra setting enabled fwd) in
  let s := run es s0 in
  urlFinder s0 = None /\ urlFinders s0 = [] /\
  contextListeners s = [] /\ contextServiceListener s = None /\
  step (SetViewEnabled b) s = set_viewEnabled b s /\
  (viewEnabled s = true ->
   urlFinder (step (SetAutoForwardPorts true) s) = Some (nextHandle s)).
Proof.
  intros Hra s0 s.
  assert (E0 : s0 = _register (ConfigurationListener 0)
                      (onDidChangeConfiguration (initial ra setting enabled fwd))).
  { subst s0. unfold constructor. cbv zeta.
    change (remoteAuthority (_register _ _)) with ra. now rewrite Hra. }
  assert (H0 : Deaf s0) by (rewrite E0; split; reflexivity).
  assert (H : Deaf s) by (apply run_invariant; [apply step_Deaf | exact H0]).
  assert (Hs : Subscribed s) by apply run_Subscribed, constructor_Subscribed.
  destruct H as (Hl & Hk).
  split; [now rewrite E0|]. split; [now rewrite E0|].
  split; [exact Hl|]. split; [exact Hk|]. split.
  - cbn [step]. unfold fireContextChange.
    change (contextListeners (set_viewEnabled b s)) with (contextListeners s).
    now rewrite Hl.
  - intros Hv. cbn [step]. destruct Hs as (Hc & _).
    destruct (configurationListeners s) as [|x [|y l]] eqn:El; try discriminate.
    rewrite (fireConfigurationChange_single true (set_autoForwardPorts true s) x El).
    unfold changeListener, tryStartStopUrlFinder.
    change (autoForwardPorts (set_autoForwardPorts true s)) with true. cbv iota.
    unfold startUrlFinder.
    change (viewEnabled (set_autoForwardPorts true s)) with (viewEnabled s).
    rewrite Hv, andb_false_r. cbv zeta. unfold disposeContextServiceListener.
    change (contextServiceListener (set_autoForwardPorts true s))
      with (contextServiceListener s).
    rewrite Hk. reflexivity.
Qed.

(** *** Requests, pending calls and prompts *)

Lemma tryStartStopUrlFinder_requests s :
  prompts (tryStartStopUrlFinder s) = prompts s /\
  awaiting (tryStartStopUrlFinder s) = awaiting s /\
  forwardRequests (tryStartStopUrlFinder s) = forwardRequests s /\
  forwarded (tryStartStopUrlFinder s) = forwarded s.
Proof.
  unfold tryStartStopUrlFinder, startUrlFinder, stopUrlFinder,
    disposeContextServiceListener.
  repeat case_match; repeat split.
Qed.

Lemma step_Accounted e s : Accounted s -> Accounted (step e s).
Proof.
  apply step_invariant; clear e s; unfold Accounted.
  - intros b s H. exact H.
  - intros b s H. exact H.
  - intros m s H. exact H.
  - intros s H.
    destruct (tryStartStopUrlFinder_requests s) as (-> & -> & -> & _). exact H.
  - intros u s H. unfold localUrlListener.
    destruct (mapHasTunnelLocalhostOrAllInterfaces _ _ _); [exact H|].
    cbn. rewrite length_app. cbn. lia.
  - intros i r s Hi H. pose proof (length_delete (awaiting s) i Hi) as E.
    apply lookup_lt_is_Some in Hi.
    destruct r; cbn; rewrite E; lia.
Qed.

(** X14: at any time the prompts shown and the calls of [forward] still
    pending are together no more than the calls of [forward] made: a prompt is
    shown only for a call that was made and has resolved. *)
Theorem X14_prompts_come_from_requests
    ra setting enabled fwd (es : list Event) :
  let s := run es (constructor (initial ra setting enabled fwd)) in
  length (prompts s) + length (awaiting s) <= length (forwardRequests s).
Proof.
  intros s. change (Accounted s). apply run_invariant; [apply step_Accounted|].
  unfold constructor. cbv zeta.
  match goal with |- Accounted (if ?b then _ else _) => destruct b end.
  - unfold Accounted.
    match goal with |- context [tryStartStopUrlFinder ?x] =>
      destruct (tryStartStopUrlFinder_requests x) as (-> & -> & -> & _) end.
    cbn. lia.
  - unfold Accounted. cbn. lia.
Qed.

(** X15: the check of line 170 looks at the tunnel model only.  A URL that
    a live scanner reports twice before the tunnel model has changed is
    requested twice: calls of [forward] that are still pending do not suppress
    a request. *)
Theorem X15_pending_forward_does_not_suppress
    ra setting enabled fwd (es : list Event) (f : nat) (u : LocalUrl) :
  let s := run es (constructor (initial ra setting enabled fwd)) in
  In f (urlFinders s) ->
  mapHasTunnelLocalhostOrAllInterfaces (forwarded s) (host u) (port u) = false ->
  let s' := run [LocalUrlMatched f u; LocalUrlMatched f u] s in
  forwardRequests s' = u :: u :: forwardRequests s /\
  awaiting s' = (awaiting s ++ [u; u])%list.
Proof.
  intros s Hf Hc s'.
  assert (H : Paired s) by (apply run_Paired, constructor_Paired).
  subst s'. cbn [run fold_left step].
  rewrite (fireMatchLocalUrl_once f u s H Hf).
  assert (E : localUrlListener u s =
              set_awaiting (awaiting s ++ [u])
                (set_forwardRequests (u :: forwardRequests s) s)).
  { unfold localUrlListener. now rewrite Hc. }
  rewrite E. rewrite fireMatchLocalUrl_once.
  - unfold localUrlListener. cbn. rewrite Hc. cbn.
    split; [reflexivity|]. now rewrite <- app_assoc.
  - revert H. apply Paired_ext. reflexivity.
  - exact Hf.
Qed.


(** *** The store *)

Lemma tryStartStopUrlFinder_Owned s : Owned s -> Owned (tryStartStopUrlFinder s).
Proof.
  intros (H1 & H2 & H3 & H4). unfold tryStartStopUrlFinder.
  destruct (autoForwardPorts s).
  - unfold startUrlFinder.
    destruct (undefined (urlFinder s) && negb (viewEnabled s));
      [repeat split; assumption|].
    cbv zeta.
    destruct (disposeContextServiceListener_store s)
      as (Es & _ & _ & Ef & Em & Ec & Hl).
    revert Es Ef Em Ec Hl. generalize (disposeContextServiceListener s).
    intros s1 Es Ef Em Ec Hl. unfold Owned. cbn. rewrite Es, Ef, Em, Ec.
    split; [|split; [|split]].
    + intros l Hin. right. right. auto.
    + intros l Hin. right. right. auto.
    + intros f [<- | Hin]; [right; now left | right; right; auto].
    + intros p [<- | Hin]; [now left | right; right; auto].
  - unfold stopUrlFinder. destruct (urlFinder s) as [f|];
      [|repeat split; assumption].
    unfold Owned. cbn. split; [|split; [|split]]; auto.
    intros g Hin. apply drop_In in Hin. auto.
Qed.

Lemma step_Owned e s : Owned s -> Owned (step e s).
Proof.
  apply step_invariant; clear e s.
  - intros b s H. exact H.
  - intros b s H. exact H.
  - intros m s H. exact H.
  - apply tryStartStopUrlFinder_Owned.
  - intros u s H. destruct (localUrlListener_writes u s) as (r & a & ->). exact H.
  - intros i r s _ H. destruct r; exact H.
Qed.

Lemma tryStartStopUrlFinder_Kept s : Kept s -> Kept (tryStartStopUrlFinder s).
Proof.
  intros H. pose proof H as (H1 & H2 & H3). unfold tryStartStopUrlFinder.
  destruct (autoForwardPorts s).
  - unfold startUrlFinder.
    destruct (undefined (urlFinder s) && negb (viewEnabled s)); [exact H|].
    cbv zeta. unfold disposeContextServiceListener.
    destruct (contextServiceListener s) as [l|] eqn:El; unfold Kept; cbn;
      rewrite ?El.
    + split; [|split].
      * intros k E. right. right. auto.
      * intros f [= <-]. right. now left.
      * intros d [<- | Hin]; right; right; auto.
    + split; [|split].
      * discriminate.
      * intros f [= <-]. right. now left.
      * intros d Hin. right. right. auto.
  - unfold stopUrlFinder. destruct (urlFinder s) as [f|] eqn:Ef; [|exact H].
    unfold Kept. cbn. split; [|split]; auto; [discriminate|].
    intros d [<- | Hin]; auto.
Qed.

Lemma step_Kept e s : Kept s -> Kept (step e s).
Proof.
  apply step_invariant; clear e s.
  - intros b s H. exact H.
  - intros b s H. exact H.
  - intros m s H. exact H.
  - apply tryStartStopUrlFinder_Kept.
  - intros u s H. destruct (localUrlListener_writes u s) as (r & a & ->). exact H.
  - intros i r s _ H. destruct r; exact H.
Qed.

(** X16: everything the object works with went through [_register].  In
    every state it reaches, each live subscription and each live scanner is
    in the store of the object, and so is everything it has disposed of
    itself: the store is never taken from. *)
Theorem X16_registered_for_disposal
    ra setting enabled fwd (es : list Event) :
  let s := run es (constructor (initial ra setting enabled fwd)) in
  (forall l, In l (configurationListeners s) ->
             In (ConfigurationListener l) (_store s)) /\
  (forall l, In l (contextListeners s) -> In (ContextListener l) (_store s)) /\
  (forall f, In f (urlFinders s) -> In (Finder f) (_store s)) /\
  (forall p, In p (matchListeners s) ->
             In (MatchListener (fst p) (snd p)) (_store s)) /\
  (forall d, In d (disposed s) -> In d (_store s)).
Proof.
  intros s.
  assert (H : Owned s /\ Kept s).
  { apply run_invariant.
    - intros e x (Ho & Hk). split; [now apply step_Owned | now apply step_Kept].
    - unfold constructor. cbv zeta.
      match goal with |- context [if ?b then _ else _] => destruct b end.
      + split.
        * apply tryStartStopUrlFinder_Owned. unfold Owned. cbn.
          repeat split; intros x Hx; intuition (subst; cbn; tauto).
        * apply tryStartStopUrlFinder_Kept. unfold Kept. cbn.
          split; [|split]; [intros l [= <-]; now left | discriminate | tauto].
      + split.
        * unfold Owned. cbn. repeat split; intros x Hx; intuition (subst; cbn; tauto).
        * unfold Kept. cbn. split; [|split]; [discriminate | discriminate | tauto]. }
  destruct H as ((H1 & H2 & H3 & H4) & (_ & _ & H5)). tauto.
Qed.


(** *** Turning the setting on and off *)

Lemma drop_fresh f l : (forall x, In x l -> x < f) -> drop f (f :: l) = l.
Proof.
  intros H. unfold drop. cbn. rewrite Nat.eqb_refl. cbn.
  induction l as [|y l IH]; cbn; [reflexivity|].
  assert (Hy : y < f) by (apply H; now left).
  destruct (Nat.eqb_spec y f) as [-> | _]; [lia|]. cbn. f_equal.
  apply IH. intros z Hz. apply H. now right.
Qed.

Lemma enable_then_disable s :
  Subscribed s -> Paired s -> urlFinder s = None -> viewEnabled s = true ->
  let s' := run [SetAutoForwardPorts true; SetAutoForwardPorts false] s in
  urlFinder s' = None /\ urlFinders s' = urlFinders s /\
  contextListeners s' = [] /\
  _store s' = MatchListener (nextHandle s) (S (nextHandle s)) ::
              Finder (nextHandle s) :: _store s /\
  In (Finder (nextHandle s)) (disposed s').
Proof.
  intros (Hc & Hl) (Hp & _) Hf Hv.
  destruct s as [ra af cl ve xl fw fr aw pr ufs ml di nh csl uf st].
  cbn in Hc, Hl, Hp, Hf, Hv. subst uf ve.
  destruct cl as [|x [|y cl]]; try discriminate. clear Hc.
  assert (Hd : drop nh (nh :: ufs) = ufs) by now apply drop_fresh.
  unfold drop in Hd. cbn in Hd. rewrite Nat.eqb_refl in Hd. cbn in Hd.
  cbv zeta. cbn [run fold_left step].
  unfold fireConfigurationChange at 2. cbn.
  destruct Hl as [-> | (l & -> & -> & _)].
  - destruct csl as [l|]; cbn; unfold fireConfigurationChange; cbn;
      rewrite Nat.eqb_refl; cbn; rewrite Hd; repeat split; auto.
  - cbn. unfold fireConfigurationChange; cbn.
    rewrite !Nat.eqb_refl. cbn. rewrite Hd.
    repeat split; auto.
Qed.

(** X17: turning the setting on and off again while no scanner is stored
    and the panel is enabled.  The scanner created by the first change is the
    one disposed by the second: afterwards [urlFinder] is undefined and the
    live scanners are those from before.  Two things do not come back: the
    store keeps the scanner and its listener, and the context-key listener,
    disposed when the scanner was started, is not subscribed again. *)
Theorem X17_enable_then_disable
    ra setting enabled fwd (es : list Event) :
  let s := run es (constructor (initial ra setting enabled fwd)) in
  urlFinder s = None -> viewEnabled s = true ->
  let s' := run [SetAutoForwardPorts true; SetAutoForwardPorts false] s in
  urlFinder s' = None /\ urlFinders s' = urlFinders s /\
  contextListeners s' = [] /\
  _store s' = MatchListener (nextHandle s) (S (nextHandle s)) ::
              Finder (nextHandle s) :: _store s /\
  In (Finder (nextHandle s)) (disposed s').
Proof.
  intros s Hf Hv. apply enable_then_disable; try assumption.
  - apply run_Subscribed, constructor_Subscribed.
  - apply run_Paired, constructor_Paired.
Qed.

End Coverage.

(** X12 at a concrete run: the setting is on, the key is false and is set
    to false again. *)
Lemma X12_witness :
  let es := [SetAutoForwardPorts true;
             LocalUrlMatched 2 (mkLocalUrl "127.0.0.1" 3000);
             SetViewEnabled false] in
  let s := run (imports := specImports) es
             (constructor (initial (Some "ssh-remote+box") true false ∅)) in
  ~ In (SetViewEnabled true) es /\ urlFinders s = [] /\ forwardRequests s = [].
Proof.
  intros es s.
  assert (H : ~ In (SetViewEnabled true) es)
    by (intros [H|[H|[H|[]]]]; discriminate).
  split; [exact H|].
  destruct (X12_nothing_starts_while_view_disabled (imports := specImports)
              (Some "ssh-remote+box") true ∅ es H) as (_ & H1 & _ & H2 & _).
  split; [exact H1 | exact H2].
Defined.

(** X13 at a concrete run: a local window in which the setting is turned
    off. *)
Lemma X13_witness :
  let s := run (imports := specImports) [SetAutoForwardPorts false]
             (constructor (initial None true true ∅)) in
  truthy None = false /\
  step (imports := specImports) (SetViewEnabled false) s = set_viewEnabled false s.
Proof.
  intros s.
  assert (H : truthy None = false) by reflexivity.
  split; [exact H|].
  destruct (X13_local_window (imports := specImports)
              None true true ∅ [SetAutoForwardPorts false] false H)
    as (_ & _ & _ & _ & E & _).
  exact E.
Defined.

(** X15 at a concrete state: the scanner started by the constructor reports
    127.0.0.1:3000 twice while nothing is forwarded. *)
Lemma X15_witness :
  let u := mkLocalUrl "127.0.0.1" 3000 in
  let s := run (imports := specImports) []
             (constructor (initial (Some "ssh-remote+box") true true ∅)) in
  let s' := run (imports := specImports)
              [LocalUrlMatched 2 u; LocalUrlMatched 2 u] s in
  In 2 (urlFinders s) /\
  mapHasTunnelLocalhostOrAllInterfaces (RemoteExplorerImports := specImports)
    (forwarded s) (host u) (port u) = false /\
  forwardRequests s' = u :: u :: forwardRequests s.
Proof.
  intros u s s'.
  assert (Hf : In 2 (urlFinders s)) by (vm_compute; auto).
  assert (Hc : mapHasTunnelLocalhostOrAllInterfaces
                 (RemoteExplorerImports := specImports)
                 (forwarded s) (host u) (port u) = false)
    by (vm_compute; reflexivity).
  split; [exact Hf|]. split; [exact Hc|].
  exact (proj1 (X15_pending_forward_does_not_suppress (imports := specImports)
                  (Some "ssh-remote+box") true true ∅ [] 2 u Hf Hc)).
Defined.

(** X17 at a concrete state: a remote window constructed with the setting
    off and the panel enabled. *)
Lemma X17_witness :
  let s := run (imports := specImports) []
             (constructor (initial (Some "ssh-remote+box") false true ∅)) in
  let s' := run (imports := specImports)
              [SetAutoForwardPorts true; SetAutoForwardPorts false] s in
  urlFinder s = None /\ viewEnabled s = true /\
  urlFinder s' = None /\ urlFinders s' = urlFinders s.
Proof.
  intros s s'.
  assert (Hf : urlFinder s = None) by reflexivity.
  assert (Hv : viewEnabled s = true) by reflexivity.
  split; [exact Hf|]. split; [exact Hv|].
  destruct (X17_enable_then_disable (imports := specImports)
              (Some "ssh-remote+box") false true ∅ [] Hf Hv) as (H1 & H2 & _).
  split; [exact H1 | exact H2].
Defined.

End AutomaticPortForwardingFacts.
